(** * QKart backend: the cart service ([src/services/cart.service.js])

    A shallow embedding of the five operations of the cart service
    ([getCartByUser], [addProductToCart], [updateProductInCart],
    [deleteProductFromCart], [checkout]) over an explicit model of the
    three Mongo collections they talk to, followed by the properties of
    the service.

    Modelling conventions.
    - JavaScript numbers are binary64 floating-point numbers.  They are
      modelled as [Z]: the model covers integer amounts, and its
      arithmetic is the arithmetic of the source as long as every operand
      and every result is a safe integer ([safe_integer], at most
      [2^53 - 1] in absolute value), where binary64 is exact.  A theorem
      that states the value of a computed amount assumes this
      ([exact_checkout]); a possibly unset number is an [option Z].
    - The Cart collection holds one document per user, keyed by its unique
      [email]; the User collection is keyed by [email].
    - The Product collection is seen through its query: for each request
      string, the document that [Product.findOne({ _id })] finds, or
      nothing.  The document found carries the [_id] it is stored under,
      which need not be the request string: mongoose casts the request
      string before it looks the document up (an identifier written in
      upper-case hexadecimal digits finds the document stored under the
      lower-case ones).  The [_id] of a document is modelled as the string
      that [==] compares with a request string.
    - An [async] function is a computation in the monad [M]: it reads and
      writes the [World] and either returns a value or throws.  Writes that
      happen before a [throw] stay in the world, as they do in the source.
    - The parameter [user] of the source is a reference to the request's
      user document, a mutable object shared with the caller.  It lives in
      the world as the field [user], so that a mutation of it (checkout)
      is visible after the call, whether the call returns or throws. *)

From stdpp Require Import gmap strings list fin_maps.
From Stdlib Require Import ZArith Ascii.

(** ** Documents *)

(** [httpStatus.NOT_FOUND], [httpStatus.BAD_REQUEST] and
    [httpStatus.INTERNAL_SERVER_ERROR] (404, 400 and 500), the three codes
    the service uses.  The specification calls an error with these codes
    NotFound, InvalidRequest and InternalError. *)
Inductive httpStatus : Type :=
  | NOT_FOUND
  | BAD_REQUEST
  | INTERNAL_SERVER_ERROR.

(** [new ApiError(statusCode, message)] *)
Record ApiError : Type := mkApiError {
  statusCode : httpStatus;
  message : string
}.

(** What a call can throw: an [ApiError] of the service, or the
    [TypeError] JavaScript raises when a property of [undefined] is
    written. *)
Inductive Exn : Type :=
  | ApiErr (e : ApiError)
  | TypeError.

(** A product document; the service reads its [_id] and its [cost].  The
    [_id] is the one the document is stored under, as a string. *)
Record Product : Type := mkProduct {
  _id : string;
  cost : Z
}.

(** A line item: an embedded copy of the product and a quantity. *)
Record CartItem : Type := mkCartItem {
  product : Product;
  quantity : Z
}.

Module Cart.
(** A cart document. *)
Record doc : Type := mk {
  email : string;
  cartItems : list CartItem
}.
End Cart.

Module User.
(** The part of a user document the service reads: [user.email],
    [user.walletMoney] (possibly unset), and what the method
    [user.hasSetNonDefaultAddress()] answers. *)
Record doc : Type := mk {
  email : string;
  walletMoney : option Z;
  nonDefaultAddress : bool
}.
End User.

#[global] Instance httpStatus_eq_dec : EqDecision httpStatus.
Proof. solve_decision. Defined.
#[global] Instance ApiError_eq_dec : EqDecision ApiError.
Proof. solve_decision. Defined.
#[global] Instance Product_eq_dec : EqDecision Product.
Proof. solve_decision. Defined.
#[global] Instance CartItem_eq_dec : EqDecision CartItem.
Proof. solve_decision. Defined.

(** What the service functions return: a cart document, or [undefined]
    for a function that ends without a [return]. *)
Inductive Value : Type :=
  | VCart (c : Cart.doc)
  | VUndefined.

(** ** The world *)

Record World : Type := mkWorld {
  (** the request's user document, the object [user] refers to *)
  user : User.doc;
  (** Cart collection: [email] to [cartItems] *)
  carts : gmap string (list CartItem);
  (** Product collection, as its query answers: the document found for
      a request string, with the [_id] it is stored under, or nothing *)
  products : string -> option Product;
  (** User collection (the persisted user documents), by [email]; the
      cart service has no call that writes it *)
  users : gmap string User.doc;
  (** whether [Cart.create] yields the created document (it yields a
      falsy value otherwise) *)
  cart_create_ok : bool
}.

Definition set_user (u : User.doc) (w : World) : World :=
  mkWorld u (carts w) (products w) (users w) (cart_create_ok w).

Definition set_carts (cs : gmap string (list CartItem)) (w : World) : World :=
  mkWorld (user w) cs (products w) (users w) (cart_create_ok w).

(** ** The monad of service calls *)

Inductive Result (A : Type) : Type :=
  | Return (a : A)
  | Throw (e : Exn).
Arguments Return {A} a.
Arguments Throw {A} e.

Definition M (A : Type) : Type := World -> Result A * World.

Definition ret {A} (a : A) : M A := fun w => (Return a, w).

Definition bind {A B} (c : M A) (k : A -> M B) : M B :=
  fun w =>
    match c w with
    | (Return a, w') => k a w'
    | (Throw e, w') => (Throw e, w')
    end.

Definition throw {A} (e : Exn) : M A := fun w => (Throw e, w).

Definition gets {A} (f : World -> A) : M A := fun w => (Return (f w), w).

Definition modify (f : World -> World) : M unit := fun w => (Return tt, f w).

Notation "x <- c ;; k" := (bind c (fun x => k))
  (at level 100, c at next level, right associativity).
Notation "c ;;; k" := (bind c (fun _ => k))
  (at level 100, right associativity).

(** [throw new ApiError(status, msg)] *)
Definition throwApi {A} (s : httpStatus) (msg : string) : M A :=
  throw (ApiErr (mkApiError s msg)).

(** ** The models (mongoose) *)

(** [Cart.findOne({ email })] *)
Definition Cart_findOne (e : string) : M (option Cart.doc) :=
  gets (fun w => Cart.mk e <$> carts w !! e).

(** [cart.save()] *)
Definition Cart_save (c : Cart.doc) : M unit :=
  modify (fun w => set_carts (<[Cart.email c := Cart.cartItems c]> (carts w)) w).

(** [Cart.create(doc)]: inserts the document and yields it, or yields a
    falsy value and inserts nothing. *)
Definition Cart_create (c : Cart.doc) : M (option Cart.doc) :=
  ok <- gets cart_create_ok;;
  if ok : bool then (Cart_save c;;; ret (Some c)) else ret None.

(** [Product.findOne({ _id })]: the document the collection finds for
    the request string; its [_id] is its own. *)
Definition Product_findOne (id : string) : M (option Product) :=
  gets (fun w => products w id).

(** Modelled from the spec: [user.hasSetNonDefaultAddress()] is a method
    of the User model, which is not among the sources.  The specification
    gives the user an address-presence flag that this predicate reports;
    it reads the user document and writes nothing. *)
Definition hasSetNonDefaultAddress (u : User.doc) : M bool :=
  ret (User.nonDefaultAddress u).

(** ** Arrays *)

(** [arr.find(pred)]: the first element satisfying [pred]. *)
Fixpoint find {A} (pred : A -> bool) (arr : list A) : option A :=
  match arr with
  | [] => None
  | x :: rest => if pred x then Some x else find pred rest
  end.

(** [arr.indexOf(x)]: the first index holding [x], or [-1].  The source
    compares object identities; the model compares values.  The service
    only looks for the element that [find] has just returned, and the
    first equal element is then that element ([indexOf_first]). *)
Fixpoint indexOf {A} `{EqDecision A} (x : A) (arr : list A) : Z :=
  match arr with
  | [] => -1
  | y :: rest =>
      if decide (y = x) then 0%Z
      else match indexOf x rest with
           | Zneg _ => -1
           | i => (i + 1)%Z
           end
  end.

(** [arr.splice(start, 1)]: removes the element at [start]; a negative
    [start] counts from the end, and nothing is removed past the end. *)
Definition splice1 {A} (start : Z) (arr : list A) : list A :=
  let len := Z.of_nat (length arr) in
  let s := if (start <? 0)%Z then Z.max (len + start) 0 else Z.min start len in
  delete (Z.to_nat s) arr.

(** The test [ele.product._id == productId]; identifiers are compared as
    strings. *)
Definition is_product (productId : string) (ele : CartItem) : bool :=
  bool_decide (_id (product ele) = productId).

(** [!n] is false for a number other than 0, true for 0 and [undefined] *)
Definition truthy (n : option Z) : bool :=
  match n with
  | Some v => negb (v =? 0)%Z
  | None => false
  end.

(** [arr[idx].quantity = quantity]: writing a property of an element
    that does not exist raises a [TypeError]. *)
Definition set_quantity (idx : Z) (quantity : Z) (arr : list CartItem)
  : M (list CartItem) :=
  match (if (0 <=? idx)%Z then arr !! Z.to_nat idx else None) with
  | Some ele => ret (<[Z.to_nat idx := mkCartItem (product ele) quantity]> arr)
  | None => throw TypeError
  end.

(** The loop of [checkout]:
    [let sum = 0; cartItems.forEach(ele => { sum += ele.product.cost * ele.quantity })].
    The source accumulates in binary64, in the order of the line items;
    the integer sum is what it computes when [exact_total] holds. *)
Definition total (cartItems : list CartItem) : Z :=
  foldl (fun sum ele => (sum + cost (product ele) * quantity ele)%Z) 0%Z cartItems.

(** [user.walletMoney -= sum]; the integer difference is what the source
    computes when the balance, the sum and the difference are safe
    integers. *)
Definition debit (sum : Z) (u : User.doc) : User.doc :=
  User.mk (User.email u)
          ((fun balance => (balance - sum)%Z) <$> User.walletMoney u)
          (User.nonDefaultAddress u).

(** ** The cart service *)

Definition getCartByUser : M Value :=
  u <- gets user;;
  cart <- Cart_findOne (User.email u);;
  match cart with
  | None => throwApi NOT_FOUND "User does not have a cart"
  | Some cart => ret (VCart cart)
  end.

Definition addProductToCart (productId : string) (quantity : Z) : M Value :=
  product <- Product_findOne productId;;
  match product with
  | None => throwApi BAD_REQUEST "Product doesn't exist in database"
  | Some product =>
      u <- gets user;;
      userCart <- Cart_findOne (User.email u);;
      match userCart with
      | None =>
          userCart <- Cart_create
                        (Cart.mk (User.email u) [mkCartItem product quantity]);;
          match userCart with
          | None => throwApi INTERNAL_SERVER_ERROR "Internal Server Error"
          | Some userCart => Cart_save userCart;;; ret (VCart userCart)
          end
      | Some userCart =>
          let itemArray := Cart.cartItems userCart in
          match find (is_product productId) itemArray with
          | Some _ =>
              throwApi BAD_REQUEST
                "Product already in cart. Use the cart sidebar to update or remove product from cart"
          | None =>
              let userCart :=
                Cart.mk (Cart.email userCart)
                        (itemArray ++ [mkCartItem product quantity]) in
              Cart_save userCart;;; ret (VCart userCart)
          end
      end
  end.

Definition updateProductInCart (productId : string) (quantity : Z) : M Value :=
  u <- gets user;;
  cart <- Cart_findOne (User.email u);;
  match cart with
  | None =>
      throwApi BAD_REQUEST
        "User does not have a cart. Use POST to create cart and add a product"
  | Some cart =>
      product <- Product_findOne productId;;
      match product with
      | None => throwApi BAD_REQUEST "Product doesn't exist in database"
      | Some _ =>
          let itemArray := Cart.cartItems cart in
          match find (is_product productId) itemArray with
          | None => throwApi BAD_REQUEST "Product not in cart"
          | Some item =>
              let idx := indexOf item itemArray in
              cartItems <- set_quantity idx quantity itemArray;;
              let cart := Cart.mk (Cart.email cart) cartItems in
              Cart_save cart;;; ret (VCart cart)
          end
      end
  end.

Definition deleteProductFromCart (productId : string) : M Value :=
  u <- gets user;;
  cart <- Cart_findOne (User.email u);;
  match cart with
  | None =>
      throwApi BAD_REQUEST
        "User does not have a cart. Use POST to create cart and add a product"
  | Some cart =>
      let itemArray := Cart.cartItems cart in
      match find (is_product productId) itemArray with
      | None => throwApi BAD_REQUEST "Product not in cart"
      | Some item =>
          let idx := indexOf item itemArray in
          let cart := Cart.mk (Cart.email cart) (splice1 idx itemArray) in
          Cart_save cart;;; ret (VCart cart)
      end
  end.

Definition checkout : M Value :=
  u <- gets user;;
  cart <- Cart_findOne (User.email u);;
  match cart with
  | None => throwApi NOT_FOUND "User does not have a cart"
  | Some cart =>
      if (length (Cart.cartItems cart) =? 0)%nat
      then throwApi BAD_REQUEST "User cart is empty"
      else
        hasAddress <- hasSetNonDefaultAddress u;;
        if negb hasAddress
        then throwApi BAD_REQUEST "Default address is not set"
        else
          if negb (truthy (User.walletMoney u))
          then throwApi BAD_REQUEST "Insufficient balance"
          else
            let sum := total (Cart.cartItems cart) in
            modify (set_user (debit sum u));;;
            let cart := Cart.mk (Cart.email cart) [] in
            Cart_save cart;;; ret VUndefined
  end.

(** ** Example worlds

    The example of the specification: the cart of [alice] holds two units
    of product A (cost 10) and one unit of product B (cost 5), and her
    wallet holds 100. *)

Definition productA : Product := mkProduct "A" 10.
Definition productB : Product := mkProduct "B" 5.

Definition alice : User.doc := User.mk "alice@qkart" (Some 100%Z) true.

(** A Product collection that holds the documents of [catalog] and
    finds a document for the request string that [cast] maps to its
    [_id]. *)
Definition catalog_query (cast : string -> string) (catalog : list Product)
  : string -> option Product :=
  fun id => find (fun p => bool_decide (_id p = cast id)) catalog.

(** The catalog of the example holds products A and B and is queried
    with their identifiers as they are stored. *)
Definition example_world : World :=
  mkWorld alice
    {[ "alice@qkart" := [mkCartItem productA 2; mkCartItem productB 1] ]}
    (catalog_query (fun id => id) [productA; productB])
    {[ "alice@qkart" := alice ]}
    true.

(** The same world with another wallet balance in the request's user
    document. *)
Definition with_wallet (balance : option Z) (w : World) : World :=
  set_user (User.mk (User.email (user w)) balance
                    (User.nonDefaultAddress (user w))) w.

(** The same world with another content of the Cart collection. *)
Definition with_carts (cs : gmap string (list CartItem)) (w : World) : World :=
  set_carts cs w.

(** The same world with a user document that has no non-default
    address. *)
Definition no_address (w : World) : World :=
  set_user (User.mk (User.email (user w)) (User.walletMoney (user w)) false) w.

(** The same world with a store that does, or does not, create carts. *)
Definition with_create (ok : bool) (w : World) : World :=
  mkWorld (user w) (carts w) (products w) (users w) ok.

(** The example world with only product A in the cart of [alice]. *)
Definition cart_of_A : World :=
  with_carts {[ "alice@qkart" := [mkCartItem productA 2] ]} example_world.

(** The example world with a cart that holds product Z, which is not in
    the catalog. *)
Definition cart_of_Z : World :=
  with_carts {[ "alice@qkart" := [mkCartItem (mkProduct "Z" 3) 1] ]} example_world.

(** A catalog whose identifiers are hexadecimal, queried as mongoose
    casts a request string: upper-case digits find the document stored
    under the lower-case ones. *)
Definition lower_case_digit (c : ascii) : ascii :=
  (match c with
   | "A" => "a" | "B" => "b" | "C" => "c"
   | "D" => "d" | "E" => "e" | "F" => "f"
   | _ => c
   end)%char.

Fixpoint lower_case_hex (s : string) : string :=
  match s with
  | EmptyString => EmptyString
  | String c rest => String (lower_case_digit c) (lower_case_hex rest)
  end.

Definition productH : Product := mkProduct "5f1a00000000000000000abc" 7.

Definition hex_world : World :=
  mkWorld alice
    {[ "alice@qkart" := [mkCartItem productA 2] ]}
    (catalog_query lower_case_hex [productH])
    {[ "alice@qkart" := alice ]}
    true.

(** ** Specification-side definitions *)

(** [Number.MAX_SAFE_INTEGER]; the integers up to it in absolute value
    are binary64 numbers, and a sum, difference or product of two of
    them that is again one of them is computed exactly. *)
Definition MAX_SAFE_INTEGER : Z := 2 ^ 53 - 1.

Definition safe_integer (n : Z) : Prop :=
  (- MAX_SAFE_INTEGER <= n <= MAX_SAFE_INTEGER)%Z.

(** Every step of the loop of [checkout], started with [sum], is exact:
    the cost, the quantity, their product and the new sum are safe
    integers. *)
Fixpoint exact_total_from (sum : Z) (cartItems : list CartItem) : Prop :=
  match cartItems with
  | [] => True
  | ele :: rest =>
      safe_integer (cost (product ele)) /\
      safe_integer (quantity ele) /\
      safe_integer (cost (product ele) * quantity ele) /\
      safe_integer (sum + cost (product ele) * quantity ele) /\
      exact_total_from (sum + cost (product ele) * quantity ele) rest
  end.

Definition exact_total (cartItems : list CartItem) : Prop :=
  exact_total_from 0 cartItems.

(** The arithmetic of a checkout of [cartItems] against [balance] is
    exact. *)
Definition exact_checkout (balance : Z) (cartItems : list CartItem) : Prop :=
  exact_total cartItems /\
  safe_integer balance /\
  safe_integer (balance - total cartItems).

(** The total of a cart as the specification words it: the sum over the
    line items of unit cost times quantity, the unit cost being the one
    of the embedded product. *)
Fixpoint sum_cost_times_quantity (items : list CartItem) : Z :=
  match items with
  | [] => 0
  | item :: rest =>
      (cost (product item) * quantity item + sum_cost_times_quantity rest)%Z
  end.

(** The cart holds no line item for [productId]. *)
Definition not_in_cart (productId : string) (items : list CartItem) : Prop :=
  Forall (fun item => _id (product item) <> productId) items.

(** The cart holds a line item for [productId]. *)
Definition in_cart (productId : string) (items : list CartItem) : Prop :=
  Exists (fun item => _id (product item) = productId) items.

(** The number of line items of the cart for [productId]. *)
Definition line_items_for (productId : string) (items : list CartItem) : nat :=
  length (filter (fun item => _id (product item) = productId) items).

(** The product identifiers of a cart, in order. *)
Definition product_ids (items : list CartItem) : list string :=
  (fun item => _id (product item)) <$> items.

(** The two halves of the cart invariant of the data model, for one cart
    and for the Cart collection. *)
Definition quantities_positive (items : list CartItem) : Prop :=
  Forall (fun item => (1 <= quantity item)%Z) items.

Definition products_unique (items : list CartItem) : Prop :=
  NoDup (product_ids items).

Definition carts_quantities_positive (w : World) : Prop :=
  map_Forall (fun _ items => quantities_positive items) (carts w).

Definition carts_products_unique (w : World) : Prop :=
  map_Forall (fun _ items => products_unique items) (carts w).

Definition cart_invariant (w : World) : Prop :=
  carts_quantities_positive w /\ carts_products_unique w.

(** ** The exported operations

    [module.exports] of the service: a request of the user is a call of
    one of the five functions. *)
Inductive Operation : Type :=
  | GetCartByUser
  | AddProductToCart (productId : string) (quantity : Z)
  | UpdateProductInCart (productId : string) (quantity : Z)
  | DeleteProductFromCart (productId : string)
  | Checkout.

Definition call (op : Operation) : M Value :=
  match op with
  | GetCartByUser => getCartByUser
  | AddProductToCart productId quantity => addProductToCart productId quantity
  | UpdateProductInCart productId quantity => updateProductInCart productId quantity
  | DeleteProductFromCart productId => deleteProductFromCart productId
  | Checkout => checkout
  end.

(** The world after a sequence of calls made one after the other with
    the same user document; a call that throws ends its own request only,
    and the next call starts from the world it left. *)
Fixpoint calls (ops : list Operation) (w : World) : World :=
  match ops with
  | [] => w
  | op :: rest => calls rest (call op w).2
  end.

(** The product that [addProductToCart] finds, if the call is one and
    finds one, is stored under the request string itself. *)
Definition adds_stored_id (w : World) (op : Operation) : Prop :=
  match op with
  | AddProductToCart productId _ =>
      forall p, products w productId = Some p -> _id p = productId
  | _ => True
  end.

(** The quantity a call supplies, if it supplies one, is at least 1. *)
Definition supplies_positive (op : Operation) : Prop :=
  match op with
  | AddProductToCart _ quantity | UpdateProductInCart _ quantity =>
      (1 <= quantity)%Z
  | _ => True
  end.

(** The same world with another content of the Product collection. *)
Definition with_products (ps : string -> option Product) (w : World) : World :=
  mkWorld (user w) (carts w) ps (users w) (cart_create_ok w).

(** * Properties *)

(** ** Arrays *)

Section arrays.
Context {A : Type} `{EqDecision A}.
Variable pred : A -> bool.

Lemma find_None (arr : list A) :
  find pred arr = None <-> Forall (fun x => pred x = false) arr.
Proof.
  induction arr as [|x rest IH]; simpl.
  - split; [constructor | reflexivity].
  - destruct (pred x) eqn:Hx.
    + split; [discriminate|]. intros Hall. inversion Hall; congruence.
    + rewrite IH. split.
      * intros Hrest. by constructor.
      * intros Hall. by inversion Hall.
Qed.

Lemma find_Some_split (arr : list A) (x : A) :
  find pred arr = Some x ->
  exists l1 l2,
    arr = l1 ++ x :: l2 /\ pred x = true /\
    Forall (fun y => pred y = false) l1.
Proof.
  induction arr as [|y rest IH]; simpl; [discriminate|].
  destruct (pred y) eqn:Hy.
  - intros [= ->]. by exists [], rest.
  - intros Hfind. destruct (IH Hfind) as (l1 & l2 & -> & Hx & Hl1).
    exists (y :: l1), l2. split; [done|]. split; [done|]. by constructor.
Qed.

Lemma find_first (l1 l2 : list A) (x : A) :
  Forall (fun y => pred y = false) l1 -> pred x = true ->
  find pred (l1 ++ x :: l2) = Some x.
Proof.
  intros Hl1 Hx. induction Hl1 as [|y l1 Hy _ IH]; simpl.
  - by rewrite Hx.
  - by rewrite Hy.
Qed.

(** [indexOf] of the element that [find] returned is the position at
    which [find] met it. *)
Lemma indexOf_first (l1 l2 : list A) (x : A) :
  Forall (fun y => pred y = false) l1 -> pred x = true ->
  indexOf x (l1 ++ x :: l2) = Z.of_nat (length l1).
Proof.
  intros Hl1 Hx. induction Hl1 as [|y l1 Hy _ IH]; simpl.
  - by rewrite decide_True.
  - rewrite decide_False by congruence.
    rewrite IH. destruct (length l1); simpl; [done|].
    f_equal. lia.
Qed.

Lemma splice1_first (l1 l2 : list A) (x : A) :
  splice1 (Z.of_nat (length l1)) (l1 ++ x :: l2) = l1 ++ l2.
Proof.
  unfold splice1.
  replace (Z.of_nat (length l1) <? 0)%Z with false by (symmetry; apply Z.ltb_ge; lia).
  rewrite Z.min_l by (rewrite length_app; simpl; lia).
  rewrite Nat2Z.id. apply delete_middle.
Qed.
End arrays.

Lemma is_product_true (productId : string) (item : CartItem) :
  is_product productId item = true <-> _id (product item) = productId.
Proof. unfold is_product. apply bool_decide_eq_true. Qed.

Lemma is_product_false (productId : string) (item : CartItem) :
  is_product productId item = false <-> _id (product item) <> productId.
Proof. unfold is_product. apply bool_decide_eq_false. Qed.

Lemma find_not_in_cart (productId : string) (items : list CartItem) :
  find (is_product productId) items = None <-> not_in_cart productId items.
Proof.
  rewrite find_None. unfold not_in_cart.
  apply Forall_iff. intros item. apply is_product_false.
Qed.

(** A cart that holds a line item for [productId] splits at the first
    such item, which is the one [find] returns. *)
Lemma in_cart_split (productId : string) (items : list CartItem) :
  in_cart productId items ->
  exists l1 item l2,
    items = l1 ++ item :: l2 /\ _id (product item) = productId /\
    not_in_cart productId l1 /\
    find (is_product productId) items = Some item.
Proof.
  intros Hin.
  destruct (find (is_product productId) items) as [item|] eqn:Hfind.
  - destruct (find_Some_split _ _ _ Hfind) as (l1 & l2 & -> & Hitem & Hl1).
    exists l1, item, l2. split; [done|].
    split; [by apply is_product_true|]. split; [|done].
    eapply Forall_impl; [exact Hl1|]. intros y. apply is_product_false.
  - apply find_not_in_cart in Hfind. exfalso.
    unfold in_cart in Hin. apply Exists_exists in Hin as (item & Hitem & Hid).
    unfold not_in_cart in Hfind. rewrite Forall_forall in Hfind.
    by apply (Hfind item).
Qed.

Lemma set_quantity_first (l1 l2 : list CartItem) (item : CartItem) (q : Z) (w : World) :
  set_quantity (Z.of_nat (length l1)) q (l1 ++ item :: l2) w =
  (Return (l1 ++ mkCartItem (product item) q :: l2), w).
Proof.
  unfold set_quantity.
  replace (0 <=? Z.of_nat (length l1))%Z with true by (symmetry; apply Z.leb_le; lia).
  rewrite Nat2Z.id, list_lookup_middle by done.
  unfold ret. f_equal.
  rewrite insert_app_r_alt by lia. by rewrite Nat.sub_diag.
Qed.

(** The loop of [checkout] computes the sum of the specification. *)
Lemma total_from (acc : Z) (items : list CartItem) :
  foldl (fun sum ele => (sum + cost (product ele) * quantity ele)%Z) acc items
  = (acc + sum_cost_times_quantity items)%Z.
Proof.
  revert acc. induction items as [|item rest IH]; intros acc; simpl.
  - lia.
  - rewrite IH. lia.
Qed.

Lemma total_sum (items : list CartItem) :
  total items = sum_cost_times_quantity items.
Proof. unfold total. by rewrite total_from. Qed.

Lemma truthy_nonzero (balance : Z) :
  balance <> 0%Z -> truthy (Some balance) = true.
Proof. intros Hb. simpl. apply negb_true_iff. by apply Z.eqb_neq. Qed.

(** ** Running the service *)

Ltac unfold_service :=
  unfold getCartByUser, addProductToCart, updateProductInCart,
    deleteProductFromCart, checkout.

Ltac unfold_monad :=
  unfold Cart_create, Cart_findOne, Cart_save, Product_findOne,
    hasSetNonDefaultAddress, throwApi, bind, ret, throw, gets, modify.

Ltac run := unfold_service; unfold_monad; simpl.

(** ** checkout *)

(** C1.  For every user whose cart exists and is non-empty, whose address
    check passes and whose wallet balance is truthy (a number other than
    0), [checkout] returns normally; the wallet of the user document is
    the old balance minus the sum over the line items of embedded cost
    times quantity, and the stored cart has no line items.  The balance is
    not compared with the total: when the total exceeds the balance the
    call succeeds all the same and leaves a negative balance.  The
    amounts are integers and the arithmetic of the call is exact
    ([exact_checkout]): the costs, the quantities, every product, every
    partial sum, the balance and the new balance are safe integers. *)
Theorem checkout_debits_and_empties (w : World) (items : list CartItem) (balance : Z) :
  carts w !! User.email (user w) = Some items ->
  items <> [] ->
  User.nonDefaultAddress (user w) = true ->
  User.walletMoney (user w) = Some balance ->
  balance <> 0%Z ->
  exact_checkout balance items ->
  exists w',
    checkout w = (Return VUndefined, w') /\
    w' = set_carts (<[User.email (user w) := []]> (carts w))
           (with_wallet (Some (balance - sum_cost_times_quantity items)%Z) w) /\
    User.walletMoney (user w') =
      Some (balance - sum_cost_times_quantity items)%Z /\
    carts w' !! User.email (user w) = Some [] /\
    ((balance < sum_cost_times_quantity items)%Z ->
     exists balance', User.walletMoney (user w') = Some balance' /\
                      (balance' < 0)%Z).
Proof.
  intros Hcart Hitems Haddr Hwallet Hbalance _.
  eexists. split; [|split; [reflexivity|]].
  - run. rewrite Hcart. simpl.
    destruct items as [|item rest]; [done|]. simpl.
    rewrite Haddr, Hwallet. simpl.
    apply Z.eqb_neq in Hbalance. rewrite Hbalance. simpl.
    unfold with_wallet, debit. rewrite Hwallet, Haddr, total_sum. reflexivity.
  - simpl. split; [done|]. split; [apply lookup_insert_eq|].
    intros Hlt. eexists. split; [done|]. lia.
Qed.

(** The wallet does not cover the total: balance 10 against a cart worth
    25 ends at -15. *)
Lemma checkout_debits_and_empties_witness :
  exists w',
    checkout (with_wallet (Some 10%Z) example_world) = (Return VUndefined, w') /\
    w' = set_carts (<["alice@qkart" := []]> (carts example_world))
           (with_wallet (Some (-15)%Z) example_world) /\
    User.walletMoney (user w') = Some (-15)%Z /\
    carts w' !! "alice@qkart" = Some [] /\
    ((10 < 25)%Z ->
     exists balance', User.walletMoney (user w') = Some balance' /\
                      (balance' < 0)%Z).
Proof.
  apply (checkout_debits_and_empties (with_wallet (Some 10%Z) example_world)
           [mkCartItem productA 2; mkCartItem productB 1] 10).
  - vm_compute. reflexivity.
  - discriminate.
  - reflexivity.
  - reflexivity.
  - lia.
  - repeat split; vm_compute; discriminate.
Defined.

(** The example of the specification: wallet 100, cart worth 25. *)
Example checkout_example :
  checkout example_world =
  (Return VUndefined,
   set_carts (<["alice@qkart" := []]> (carts example_world))
     (with_wallet (Some 75%Z) example_world)).
Proof. vm_compute. reflexivity. Qed.

(** C2.  At the example of the specification [checkout] returns normally,
    the request's user document holds 75 and the stored cart is empty,
    but the user document of the User collection still holds 100:
    [checkout] saves the cart and never saves the user. *)
Theorem checkout_wallet_not_persisted :
  exists w',
    checkout example_world = (Return VUndefined, w') /\
    User.walletMoney (user w') = Some 75%Z /\
    carts w' !! "alice@qkart" = Some [] /\
    User.walletMoney <$> users w' !! "alice@qkart" = Some (Some 100%Z).
Proof.
  eexists. split; [vm_compute; reflexivity|].
  repeat split; vm_compute; reflexivity.
Qed.

(** [checkout] never writes the User collection. *)
Lemma checkout_users_unchanged (w : World) :
  users (checkout w).2 = users w.
Proof.
  run. destruct (carts w !! User.email (user w)) as [items|]; simpl; [|done].
  destruct items; simpl; [done|].
  destruct (User.nonDefaultAddress (user w)); simpl; [|done].
  destruct (truthy (User.walletMoney (user w))); simpl; done.
Qed.

(** C3.  The four failures of [checkout], in the order of the checks: no
    cart (NotFound); a cart without line items (InvalidRequest), whatever
    the address and the wallet; no non-default address (InvalidRequest),
    whatever the wallet; a falsy wallet balance, unset or 0
    (InvalidRequest, insufficient balance).  The world after each failure
    is the world before it. *)
Theorem checkout_failures (w : World) :
  (carts w !! User.email (user w) = None ->
   checkout w =
   (Throw (ApiErr (mkApiError NOT_FOUND "User does not have a cart")), w)) /\
  (carts w !! User.email (user w) = Some [] ->
   checkout w =
   (Throw (ApiErr (mkApiError BAD_REQUEST "User cart is empty")), w)) /\
  (forall items,
     carts w !! User.email (user w) = Some items -> items <> [] ->
     User.nonDefaultAddress (user w) = false ->
     checkout w =
     (Throw (ApiErr (mkApiError BAD_REQUEST "Default address is not set")), w)) /\
  (forall items,
     carts w !! User.email (user w) = Some items -> items <> [] ->
     User.nonDefaultAddress (user w) = true ->
     User.walletMoney (user w) = None \/ User.walletMoney (user w) = Some 0%Z ->
     checkout w =
     (Throw (ApiErr (mkApiError BAD_REQUEST "Insufficient balance")), w)).
Proof.
  repeat split.
  - intros Hcart. run. by rewrite Hcart.
  - intros Hcart. run. by rewrite Hcart.
  - intros items Hcart Hitems Haddr. run. rewrite Hcart. simpl.
    destruct items; [done|]. simpl. by rewrite Haddr.
  - intros items Hcart Hitems Haddr Hwallet. run. rewrite Hcart. simpl.
    destruct items; [done|]. simpl. rewrite Haddr. simpl.
    by destruct Hwallet as [-> | ->].
Qed.

(** The four failures at concrete worlds: no cart; an empty cart; no
    address; a wallet of exactly 0, and an unset wallet. *)
Lemma checkout_failures_witness :
  checkout (with_carts ∅ example_world) =
    (Throw (ApiErr (mkApiError NOT_FOUND "User does not have a cart")),
     with_carts ∅ example_world) /\
  checkout (with_carts {[ "alice@qkart" := [] ]} (with_wallet None (no_address example_world))) =
    (Throw (ApiErr (mkApiError BAD_REQUEST "User cart is empty")),
     with_carts {[ "alice@qkart" := [] ]} (with_wallet None (no_address example_world))) /\
  checkout (with_wallet None (no_address example_world)) =
    (Throw (ApiErr (mkApiError BAD_REQUEST "Default address is not set")),
     with_wallet None (no_address example_world)) /\
  checkout (with_wallet (Some 0%Z) example_world) =
    (Throw (ApiErr (mkApiError BAD_REQUEST "Insufficient balance")),
     with_wallet (Some 0%Z) example_world) /\
  checkout (with_wallet None example_world) =
    (Throw (ApiErr (mkApiError BAD_REQUEST "Insufficient balance")),
     with_wallet None example_world).
Proof.
  split; [|split; [|split; [|split]]].
  - apply (checkout_failures (with_carts ∅ example_world)).
    vm_compute. reflexivity.
  - apply (checkout_failures
             (with_carts {[ "alice@qkart" := [] ]}
                (with_wallet None (no_address example_world)))).
    vm_compute. reflexivity.
  - apply (proj1 (proj2 (proj2 (checkout_failures
             (with_wallet None (no_address example_world)))))
             [mkCartItem productA 2; mkCartItem productB 1]).
    + vm_compute. reflexivity.
    + discriminate.
    + reflexivity.
  - apply (proj2 (proj2 (proj2 (checkout_failures
             (with_wallet (Some 0%Z) example_world))))
             [mkCartItem productA 2; mkCartItem productB 1]).
    + vm_compute. reflexivity.
    + discriminate.
    + reflexivity.
    + right. reflexivity.
  - apply (proj2 (proj2 (proj2 (checkout_failures
             (with_wallet None example_world))))
             [mkCartItem productA 2; mkCartItem productB 1]).
    + vm_compute. reflexivity.
    + discriminate.
    + reflexivity.
    + left. reflexivity.
Defined.

(** ** addProductToCart *)

Lemma line_items_for_not_in_cart (productId : string) (items : list CartItem) :
  not_in_cart productId items -> line_items_for productId items = 0.
Proof.
  unfold line_items_for. intros Hnot.
  induction Hnot as [|item rest Hitem _ IH]; [done|].
  by rewrite filter_cons_False.
Qed.

Lemma line_items_for_app (productId : string) (l1 l2 : list CartItem) :
  line_items_for productId (l1 ++ l2) =
  line_items_for productId l1 + line_items_for productId l2.
Proof. unfold line_items_for. by rewrite filter_app, length_app. Qed.

Lemma line_items_for_one (productId : string) (q : Z) (p : Product) :
  _id p = productId -> line_items_for productId [mkCartItem p q] = 1.
Proof. intros Hid. unfold line_items_for. by rewrite filter_cons_True. Qed.

(** Adding to an existing cart that does not hold the product appends a
    line item and saves the cart. *)
Lemma add_appends (w : World) (productId : string) (q : Z) (p : Product) (items : list CartItem) :
  products w productId = Some p ->
  carts w !! User.email (user w) = Some items ->
  not_in_cart productId items ->
  addProductToCart productId q w =
  (Return (VCart (Cart.mk (User.email (user w))
                          (items ++ [mkCartItem p q]))),
   set_carts (<[User.email (user w) :=
                  items ++ [mkCartItem p q]]> (carts w)) w).
Proof.
  intros Hproduct Hcart Hnot. run. rewrite Hproduct. simpl.
  rewrite Hcart. simpl.
  apply find_not_in_cart in Hnot. by rewrite Hnot.
Qed.

(** Adding a product the cart already holds is refused. *)
Lemma add_refuses_duplicate (w : World) (productId : string) (q : Z) (p : Product) (items : list CartItem) :
  products w productId = Some p ->
  carts w !! User.email (user w) = Some items ->
  in_cart productId items ->
  addProductToCart productId q w =
  (Throw (ApiErr (mkApiError BAD_REQUEST
     "Product already in cart. Use the cart sidebar to update or remove product from cart")),
   w).
Proof.
  intros Hproduct Hcart Hin. run. rewrite Hproduct. simpl.
  rewrite Hcart. simpl.
  destruct (in_cart_split _ _ Hin) as (l1 & item & l2 & _ & _ & _ & Hfind).
  by rewrite Hfind.
Qed.

(** Adding when the user has no cart. *)
Lemma add_without_cart (w : World) (productId : string) (q : Z) (p : Product) :
  products w productId = Some p ->
  carts w !! User.email (user w) = None ->
  addProductToCart productId q w =
  if cart_create_ok w
  then (Return (VCart (Cart.mk (User.email (user w))
                               [mkCartItem p q])),
        set_carts (<[User.email (user w) :=
                       [mkCartItem p q]]> (carts w)) w)
  else (Throw (ApiErr (mkApiError INTERNAL_SERVER_ERROR "Internal Server Error")),
        w).
Proof.
  intros Hproduct Hcart. run. rewrite Hproduct. simpl.
  rewrite Hcart. simpl.
  destruct (cart_create_ok w) eqn:Hok; simpl; [|done].
  unfold set_carts. simpl. by rewrite insert_insert_eq, Hok.
Qed.

(** C4, as stated, fails: the first of two calls with the same
    [productId] does not succeed for every cart.  The cart of the example
    world already holds product A, and the first call for A is refused;
    product Z is not in the catalog, and the first call for Z is refused
    too. *)
Lemma add_twice_first_call_can_fail :
  addProductToCart "A" 1 example_world =
    (Throw (ApiErr (mkApiError BAD_REQUEST
       "Product already in cart. Use the cart sidebar to update or remove product from cart")),
     example_world) /\
  addProductToCart "Z" 1 example_world =
    (Throw (ApiErr (mkApiError BAD_REQUEST "Product doesn't exist in database")),
     example_world) /\
  ~ (exists cart w1,
       addProductToCart "A" 1 example_world = (Return (VCart cart), w1) /\
       line_items_for "A" (Cart.cartItems cart) = 1).
Proof.
  split; [vm_compute; reflexivity|]. split; [vm_compute; reflexivity|].
  intros (cart & w1 & Hcall & _). vm_compute in Hcall. discriminate.
Qed.

(** C4, amended.  When [productId] resolves in the catalog to a product
    stored under [productId] itself, and the cart of the user holds no
    line item for it (or the user has no cart and the store creates one),
    the first of two calls with the same [productId] returns the cart,
    which is the stored cart and holds exactly one line item for the
    product; the second call throws InvalidRequest (already in cart) and
    leaves the world, hence that cart, as the first call left it. *)
Theorem add_twice (w : World) (productId : string) (q1 q2 : Z) (p : Product) :
  products w productId = Some p ->
  _id p = productId ->
  match carts w !! User.email (user w) with
  | Some items => not_in_cart productId items
  | None => cart_create_ok w = true
  end ->
  exists cart w1,
    addProductToCart productId q1 w = (Return (VCart cart), w1) /\
    carts w1 !! User.email (user w) = Some (Cart.cartItems cart) /\
    line_items_for productId (Cart.cartItems cart) = 1 /\
    addProductToCart productId q2 w1 =
      (Throw (ApiErr (mkApiError BAD_REQUEST
         "Product already in cart. Use the cart sidebar to update or remove product from cart")),
       w1).
Proof.
  intros Hproduct Hid Hfresh.
  destruct (carts w !! User.email (user w)) as [items|] eqn:Hcart.
  - eexists _, _. split; [by apply (add_appends w productId q1 p items)|]. simpl.
    split; [apply lookup_insert_eq|]. split.
    + rewrite line_items_for_app, line_items_for_not_in_cart by done.
      by apply line_items_for_one.
    + eapply add_refuses_duplicate; simpl; [done|apply lookup_insert_eq|].
      unfold in_cart. apply Exists_app. right. by constructor.
  - eexists _, _. split.
    { rewrite (add_without_cart w productId q1 p) by done.
      by rewrite Hfresh. }
    simpl. split; [apply lookup_insert_eq|].
    split; [by apply line_items_for_one|].
    eapply add_refuses_duplicate; simpl; [done|apply lookup_insert_eq|].
    by constructor.
Qed.

Lemma add_twice_witness :
  exists cart w1,
    addProductToCart "B" 1 cart_of_A = (Return (VCart cart), w1) /\
    carts w1 !! "alice@qkart" = Some (Cart.cartItems cart) /\
    line_items_for "B" (Cart.cartItems cart) = 1 /\
    addProductToCart "B" 4 w1 =
      (Throw (ApiErr (mkApiError BAD_REQUEST
         "Product already in cart. Use the cart sidebar to update or remove product from cart")),
       w1).
Proof.
  apply (add_twice cart_of_A "B" 1 4 productB).
  - vm_compute. reflexivity.
  - reflexivity.
  - vm_compute. repeat constructor. discriminate.
Defined.

(** C5.  When [productId] does not resolve in the catalog,
    [addProductToCart] throws InvalidRequest and the world, hence the
    Cart collection, is as before: whatever the cart of the user, absent,
    empty or already holding a line item for [productId]. *)
Theorem add_unknown_product (w : World) (productId : string) (q : Z) :
  products w productId = None ->
  addProductToCart productId q w =
  (Throw (ApiErr (mkApiError BAD_REQUEST "Product doesn't exist in database")),
   w).
Proof. intros Hproduct. run. by rewrite Hproduct. Qed.

(** Product Z is not in the catalog; the three carts are absent, empty,
    and holding a line item for Z. *)
Lemma add_unknown_product_witness :
  addProductToCart "Z" 1 (with_carts ∅ example_world) =
    (Throw (ApiErr (mkApiError BAD_REQUEST "Product doesn't exist in database")),
     with_carts ∅ example_world) /\
  addProductToCart "Z" 1 (with_carts {[ "alice@qkart" := [] ]} example_world) =
    (Throw (ApiErr (mkApiError BAD_REQUEST "Product doesn't exist in database")),
     with_carts {[ "alice@qkart" := [] ]} example_world) /\
  addProductToCart "Z" 1 cart_of_Z =
    (Throw (ApiErr (mkApiError BAD_REQUEST "Product doesn't exist in database")),
     cart_of_Z).
Proof.
  split; [|split].
  - apply (add_unknown_product (with_carts ∅ example_world) "Z" 1).
    vm_compute. reflexivity.
  - apply (add_unknown_product
             (with_carts {[ "alice@qkart" := [] ]} example_world) "Z" 1).
    vm_compute. reflexivity.
  - apply (add_unknown_product cart_of_Z "Z" 1).
    vm_compute. reflexivity.
Defined.

(** C6.  When the user has no cart and [productId] resolves in the
    catalog, [addProductToCart] creates a cart whose only line item is
    the product found, with the given quantity, stores it and returns
    it; when the store does not create the cart, it throws InternalError
    and stores nothing. *)
Theorem add_creates_cart (w : World) (productId : string) (q : Z) (p : Product) :
  products w productId = Some p ->
  carts w !! User.email (user w) = None ->
  (cart_create_ok w = true ->
   exists w',
     addProductToCart productId q w =
       (Return (VCart (Cart.mk (User.email (user w))
                               [mkCartItem p q])),
        w') /\
     carts w' = <[User.email (user w) :=
                    [mkCartItem p q]]> (carts w) /\
     user w' = user w /\ products w' = products w /\ users w' = users w) /\
  (cart_create_ok w = false ->
   addProductToCart productId q w =
     (Throw (ApiErr (mkApiError INTERNAL_SERVER_ERROR "Internal Server Error")),
      w)).
Proof.
  intros Hproduct Hcart.
  rewrite (add_without_cart w productId q p) by done.
  split; intros ->; [|done]. by eexists.
Qed.

Lemma add_creates_cart_witness :
  (exists w',
     addProductToCart "B" 3 (with_carts ∅ example_world) =
       (Return (VCart (Cart.mk "alice@qkart" [mkCartItem productB 3])), w') /\
     carts w' = <["alice@qkart" := [mkCartItem productB 3]]> ∅ /\
     user w' = alice /\ products w' = products example_world /\
     users w' = users example_world) /\
  addProductToCart "B" 3 (with_create false (with_carts ∅ example_world)) =
    (Throw (ApiErr (mkApiError INTERNAL_SERVER_ERROR "Internal Server Error")),
     with_create false (with_carts ∅ example_world)).
Proof.
  split.
  - refine (proj1 (add_creates_cart (with_carts ∅ example_world) "B" 3 productB _ _) _).
    + vm_compute. reflexivity.
    + vm_compute. reflexivity.
    + reflexivity.
  - refine (proj2 (add_creates_cart
                     (with_create false (with_carts ∅ example_world)) "B" 3 productB _ _) _).
    + vm_compute. reflexivity.
    + vm_compute. reflexivity.
    + reflexivity.
Defined.

(** ** updateProductInCart *)

Lemma not_in_cart_pred (productId : string) (items : list CartItem) :
  not_in_cart productId items ->
  Forall (fun item => is_product productId item = false) items.
Proof.
  intros Hnot. eapply Forall_impl; [exact Hnot|].
  intros item. apply is_product_false.
Qed.

(** Updating the first line item for [productId]. *)
Lemma update_first (w : World) (productId : string) (q : Z) (p : Product)
    (l1 l2 : list CartItem) (item : CartItem) :
  carts w !! User.email (user w) = Some (l1 ++ item :: l2) ->
  products w productId = Some p ->
  not_in_cart productId l1 ->
  _id (product item) = productId ->
  updateProductInCart productId q w =
  (Return (VCart (Cart.mk (User.email (user w))
                          (l1 ++ mkCartItem (product item) q :: l2))),
   set_carts (<[User.email (user w) :=
                  l1 ++ mkCartItem (product item) q :: l2]> (carts w)) w).
Proof.
  intros Hcart Hproduct Hl1 Hid.
  apply not_in_cart_pred in Hl1. apply is_product_true in Hid.
  run. rewrite Hcart. simpl. rewrite Hproduct. simpl.
  rewrite (find_first _ _ _ _ Hl1 Hid).
  by rewrite (indexOf_first _ _ _ _ Hl1 Hid), set_quantity_first.
Qed.

(** Deleting the first line item for [productId]. *)
Lemma delete_first (w : World) (productId : string)
    (l1 l2 : list CartItem) (item : CartItem) :
  carts w !! User.email (user w) = Some (l1 ++ item :: l2) ->
  not_in_cart productId l1 ->
  _id (product item) = productId ->
  deleteProductFromCart productId w =
  (Return (VCart (Cart.mk (User.email (user w)) (l1 ++ l2))),
   set_carts (<[User.email (user w) := l1 ++ l2]> (carts w)) w).
Proof.
  intros Hcart Hl1 Hid.
  apply not_in_cart_pred in Hl1. apply is_product_true in Hid.
  run. rewrite Hcart. simpl.
  rewrite (find_first _ _ _ _ Hl1 Hid).
  by rewrite (indexOf_first _ _ _ _ Hl1 Hid), splice1_first.
Qed.

(** A cart either holds a line item for [productId] or holds none. *)
Lemma in_cart_dec (productId : string) (items : list CartItem) :
  in_cart productId items \/ not_in_cart productId items.
Proof.
  destruct (find (is_product productId) items) as [item|] eqn:Hfind.
  - left. destruct (find_Some_split _ _ _ Hfind) as (l1 & l2 & -> & Hitem & _).
    apply Exists_app. right. constructor. by apply is_product_true.
  - right. by apply find_not_in_cart.
Qed.

(** C7.  When the cart of the user exists and holds no line item for
    [productId], which resolves in the catalog, [updateProductInCart]
    throws InvalidRequest (product not in cart) and the world, hence the
    cart, is as before. *)
Theorem update_absent_item (w : World) (productId : string) (q : Z) (p : Product)
    (items : list CartItem) :
  carts w !! User.email (user w) = Some items ->
  products w productId = Some p ->
  not_in_cart productId items ->
  updateProductInCart productId q w =
  (Throw (ApiErr (mkApiError BAD_REQUEST "Product not in cart")), w).
Proof.
  intros Hcart Hproduct Hnot. run. rewrite Hcart. simpl.
  rewrite Hproduct. simpl.
  apply find_not_in_cart in Hnot. by rewrite Hnot.
Qed.

Lemma update_absent_item_witness :
  updateProductInCart "B" 4 cart_of_A =
  (Throw (ApiErr (mkApiError BAD_REQUEST "Product not in cart")), cart_of_A).
Proof.
  apply (update_absent_item cart_of_A "B" 4 productB [mkCartItem productA 2]).
  - vm_compute. reflexivity.
  - vm_compute. reflexivity.
  - repeat constructor. discriminate.
Defined.

(** C8.  When the cart of the user holds a line item for [productId],
    which resolves in the catalog, the cart reads [l1 ++ item :: l2] with
    [item] the first line item for [productId], and
    [updateProductInCart] returns and stores the cart
    [l1 ++ item' :: l2] of the same owner, where [item'] has the product
    of [item] and the given quantity: the other line items and the order
    are those of the cart before. *)
Theorem update_overwrites_quantity (w : World) (productId : string) (q : Z) (p : Product)
    (items : list CartItem) :
  carts w !! User.email (user w) = Some items ->
  products w productId = Some p ->
  in_cart productId items ->
  exists l1 item l2,
    items = l1 ++ item :: l2 /\
    _id (product item) = productId /\
    not_in_cart productId l1 /\
    updateProductInCart productId q w =
    (Return (VCart (Cart.mk (User.email (user w))
                            (l1 ++ mkCartItem (product item) q :: l2))),
     set_carts (<[User.email (user w) :=
                    l1 ++ mkCartItem (product item) q :: l2]> (carts w)) w).
Proof.
  intros Hcart Hproduct Hin.
  destruct (in_cart_split _ _ Hin) as (l1 & item & l2 & -> & Hid & Hl1 & _).
  exists l1, item, l2. split; [done|]. split; [done|]. split; [done|].
  by apply (update_first w productId q p).
Qed.

Lemma update_overwrites_quantity_witness :
  exists l1 item l2,
    [mkCartItem productA 2; mkCartItem productB 1] = l1 ++ item :: l2 /\
    _id (product item) = "B" /\
    not_in_cart "B" l1 /\
    updateProductInCart "B" 7 example_world =
    (Return (VCart (Cart.mk "alice@qkart"
                            (l1 ++ mkCartItem (product item) 7 :: l2))),
     set_carts (<["alice@qkart" :=
                    l1 ++ mkCartItem (product item) 7 :: l2]>
                  (carts example_world)) example_world).
Proof.
  apply (update_overwrites_quantity example_world "B" 7 productB
           [mkCartItem productA 2; mkCartItem productB 1]).
  - vm_compute. reflexivity.
  - vm_compute. reflexivity.
  - apply Exists_cons_tl, Exists_cons_hd. reflexivity.
Defined.

Example update_example :
  updateProductInCart "B" 7 example_world =
  (Return (VCart (Cart.mk "alice@qkart" [mkCartItem productA 2; mkCartItem productB 7])),
   with_carts {[ "alice@qkart" := [mkCartItem productA 2; mkCartItem productB 7] ]}
     example_world).
Proof. vm_compute. reflexivity. Qed.

(** ** deleteProductFromCart *)

(** C9, as stated, fails: [deleteProductFromCart] does not return
    nothing.  Deleting product A from the cart of the example world
    returns the cart that is left. *)
Lemma delete_returns_the_cart :
  (deleteProductFromCart "A" example_world).1 =
    Return (VCart (Cart.mk "alice@qkart" [mkCartItem productB 1])) /\
  (deleteProductFromCart "A" example_world).1 <> Return VUndefined.
Proof.
  split; [vm_compute; reflexivity|].
  intros Hcall. vm_compute in Hcall. discriminate.
Qed.

(** C9, amended.  When the cart of the user holds a line item for
    [productId], the cart reads [l1 ++ item :: l2] with [item] the first
    line item for [productId], and [deleteProductFromCart] stores the
    cart [l1 ++ l2] and returns it; when [item] was the only line item,
    the cart is stored with no line items, and is not removed from the
    collection. *)
Theorem delete_removes_item (w : World) (productId : string)
    (items : list CartItem) :
  carts w !! User.email (user w) = Some items ->
  in_cart productId items ->
  exists l1 item l2 w',
    items = l1 ++ item :: l2 /\
    _id (product item) = productId /\
    not_in_cart productId l1 /\
    deleteProductFromCart productId w =
      (Return (VCart (Cart.mk (User.email (user w)) (l1 ++ l2))), w') /\
    w' = set_carts (<[User.email (user w) := l1 ++ l2]> (carts w)) w /\
    (length items = 1 -> carts w' !! User.email (user w) = Some []).
Proof.
  intros Hcart Hin.
  destruct (in_cart_split _ _ Hin) as (l1 & item & l2 & Hsplit & Hid & Hl1 & Hfind).
  exists l1, item, l2. eexists.
  split; [done|]. split; [done|]. split; [done|].
  split; [|split; [reflexivity|]].
  - subst items. by apply (delete_first w productId l1 l2 item).
  - intros Hlen. simpl. rewrite lookup_insert_eq. subst items.
    rewrite length_app in Hlen. simpl in Hlen.
    destruct l1, l2; simpl in Hlen; try lia. done.
Qed.

Lemma delete_removes_item_witness :
  exists l1 item l2 w',
    [mkCartItem productA 2] = l1 ++ item :: l2 /\
    _id (product item) = "A" /\
    not_in_cart "A" l1 /\
    deleteProductFromCart "A" cart_of_A =
      (Return (VCart (Cart.mk "alice@qkart" (l1 ++ l2))), w') /\
    w' = set_carts (<["alice@qkart" := l1 ++ l2]> (carts cart_of_A)) cart_of_A /\
    (length [mkCartItem productA 2] = 1 -> carts w' !! "alice@qkart" = Some []).
Proof.
  apply (delete_removes_item cart_of_A "A" [mkCartItem productA 2]).
  - vm_compute. reflexivity.
  - apply Exists_cons_hd. reflexivity.
Defined.

Example delete_only_item :
  deleteProductFromCart "A" cart_of_A =
  (Return (VCart (Cart.mk "alice@qkart" [])),
   with_carts {[ "alice@qkart" := [] ]} example_world).
Proof. vm_compute. reflexivity. Qed.

(** ** The cart invariant *)

(** What each operation leaves in the Cart collection. *)

Lemma getCartByUser_world (w : World) : (getCartByUser w).2 = w.
Proof. run. by destruct (carts w !! User.email (user w)). Qed.

Lemma checkout_carts (w : World) :
  carts (checkout w).2 = carts w \/
  carts (checkout w).2 = <[User.email (user w) := []]> (carts w).
Proof.
  run. destruct (carts w !! User.email (user w)) as [items|]; simpl; [|by left].
  destruct items; simpl; [by left|].
  destruct (User.nonDefaultAddress (user w)); simpl; [|by left].
  destruct (truthy (User.walletMoney (user w))); simpl; [by right|by left].
Qed.

Lemma deleteProductFromCart_carts (w : World) (productId : string) :
  carts (deleteProductFromCart productId w).2 = carts w \/
  exists l1 item l2,
    carts w !! User.email (user w) = Some (l1 ++ item :: l2) /\
    carts (deleteProductFromCart productId w).2 =
      <[User.email (user w) := l1 ++ l2]> (carts w).
Proof.
  destruct (carts w !! User.email (user w)) as [items|] eqn:Hcart.
  - destruct (in_cart_dec productId items) as [Hin|Hnot].
    + right.
      destruct (in_cart_split _ _ Hin) as (l1 & item & l2 & -> & Hid & Hl1 & _).
      exists l1, item, l2. split; [done|].
      by rewrite (delete_first w productId l1 l2 item).
    + left. apply find_not_in_cart in Hnot.
      run. rewrite Hcart. simpl. by rewrite Hnot.
  - left. run. by rewrite Hcart.
Qed.

Lemma updateProductInCart_carts (w : World) (productId : string) (q : Z) :
  carts (updateProductInCart productId q w).2 = carts w \/
  exists l1 item l2,
    carts w !! User.email (user w) = Some (l1 ++ item :: l2) /\
    carts (updateProductInCart productId q w).2 =
      <[User.email (user w) := l1 ++ mkCartItem (product item) q :: l2]> (carts w).
Proof.
  destruct (carts w !! User.email (user w)) as [items|] eqn:Hcart.
  - destruct (products w productId) as [p|] eqn:Hproduct.
    + destruct (in_cart_dec productId items) as [Hin|Hnot].
      * right.
        destruct (in_cart_split _ _ Hin) as (l1 & item & l2 & -> & Hid & Hl1 & _).
        exists l1, item, l2. split; [done|].
        by rewrite (update_first w productId q p l1 l2 item).
      * left. apply find_not_in_cart in Hnot.
        run. rewrite Hcart. simpl. rewrite Hproduct. simpl. by rewrite Hnot.
    + left. run. rewrite Hcart. simpl. by rewrite Hproduct.
  - left. run. by rewrite Hcart.
Qed.

Lemma addProductToCart_carts (w : World) (productId : string) (q : Z) :
  carts (addProductToCart productId q w).2 = carts w \/
  (exists p,
     carts w !! User.email (user w) = None /\
     carts (addProductToCart productId q w).2 =
       <[User.email (user w) := [mkCartItem p q]]> (carts w)) \/
  (exists p items,
     products w productId = Some p /\
     carts w !! User.email (user w) = Some items /\
     not_in_cart productId items /\
     carts (addProductToCart productId q w).2 =
       <[User.email (user w) := items ++ [mkCartItem p q]]>
         (carts w)).
Proof.
  destruct (products w productId) as [p|] eqn:Hproduct.
  - destruct (carts w !! User.email (user w)) as [items|] eqn:Hcart.
    + destruct (in_cart_dec productId items) as [Hin|Hnot].
      * left. by rewrite (add_refuses_duplicate w productId q p items).
      * right. right. exists p, items.
        split; [done|]. split; [done|]. split; [done|].
        by rewrite (add_appends w productId q p items).
    + rewrite (add_without_cart w productId q p) by done.
      destruct (cart_create_ok w); [|by left].
      right. left. by exists p.
  - left. run. by rewrite Hproduct.
Qed.

Lemma not_in_cart_ids (productId : string) (items : list CartItem) :
  not_in_cart productId items <-> productId ∉ product_ids items.
Proof.
  unfold not_in_cart, product_ids. rewrite Forall_forall, list_elem_of_fmap.
  split.
  - intros Hnot (item & -> & Hitem). by apply (Hnot item).
  - intros Hnot item Hitem Hid. apply Hnot. by exists item.
Qed.

Section one_cart.
Variables (l1 l2 : list CartItem) (item : CartItem).

Lemma unique_update (q : Z) :
  products_unique (l1 ++ item :: l2) ->
  products_unique (l1 ++ mkCartItem (product item) q :: l2).
Proof. unfold products_unique, product_ids. by rewrite !fmap_app, !fmap_cons. Qed.

Lemma unique_delete :
  products_unique (l1 ++ item :: l2) -> products_unique (l1 ++ l2).
Proof.
  unfold products_unique, product_ids. rewrite !fmap_app, fmap_cons.
  intros Hunique. eapply sublist_NoDup; [exact Hunique|].
  apply sublist_app; [done|]. by apply sublist_cons.
Qed.

Lemma positive_update (q : Z) :
  (1 <= q)%Z ->
  quantities_positive (l1 ++ item :: l2) ->
  quantities_positive (l1 ++ mkCartItem (product item) q :: l2).
Proof.
  unfold quantities_positive. rewrite !Forall_app, !Forall_cons. simpl.
  tauto.
Qed.

Lemma positive_delete :
  quantities_positive (l1 ++ item :: l2) -> quantities_positive (l1 ++ l2).
Proof.
  unfold quantities_positive. rewrite !Forall_app, !Forall_cons. tauto.
Qed.
End one_cart.

Lemma unique_append (items : list CartItem) (productId : string)
    (p : Product) (q : Z) :
  _id p = productId ->
  not_in_cart productId items ->
  products_unique items ->
  products_unique (items ++ [mkCartItem p q]).
Proof.
  intros <-. rewrite not_in_cart_ids. unfold products_unique, product_ids.
  intros Hnot Hunique. rewrite fmap_app. simpl.
  apply NoDup_app. split; [done|]. split.
  - intros id Hid ->%list_elem_of_singleton. done.
  - apply NoDup_singleton.
Qed.

Lemma positive_append (items : list CartItem) (p : Product) (q : Z) :
  (1 <= q)%Z ->
  quantities_positive items ->
  quantities_positive (items ++ [mkCartItem p q]).
Proof.
  unfold quantities_positive. rewrite Forall_app, Forall_singleton. done.
Qed.

(** Both halves of the invariant hold in the example world. *)
Lemma example_world_invariant : cart_invariant example_world.
Proof.
  split; apply map_Forall_singleton.
  - repeat constructor; simpl; lia.
  - unfold products_unique. simpl. apply NoDup_cons. split.
    + rewrite list_elem_of_singleton. discriminate.
    + apply NoDup_singleton.
Qed.

(** C10, as stated, fails: with a supplied quantity of 0 the operations
    that take a quantity do not keep every quantity at least 1.  The
    invariant holds in the example world; after updating product B to
    quantity 0 the cart holds a line item of quantity 0, and so does the
    cart after adding product B with quantity 0. *)
Lemma quantity_zero_breaks_invariant :
  cart_invariant example_world /\
  carts (updateProductInCart "B" 0 example_world).2 !! "alice@qkart" =
    Some [mkCartItem productA 2; mkCartItem productB 0] /\
  ~ cart_invariant (updateProductInCart "B" 0 example_world).2 /\
  cart_invariant cart_of_A /\
  ~ cart_invariant (addProductToCart "B" 0 cart_of_A).2.
Proof.
  split; [exact example_world_invariant|].
  split; [vm_compute; reflexivity|]. split; [|split].
  - intros [Hpositive _].
    specialize (Hpositive "alice@qkart"
                  [mkCartItem productA 2; mkCartItem productB 0]).
    assert (quantities_positive [mkCartItem productA 2; mkCartItem productB 0])
      as Hcart by (apply Hpositive; vm_compute; reflexivity).
    inversion Hcart as [|? ? _ Hrest]. inversion Hrest as [|? ? Hq _].
    simpl in Hq. lia.
  - split; apply map_Forall_singleton.
    + repeat constructor; simpl; lia.
    + apply NoDup_singleton.
  - intros [Hpositive _].
    specialize (Hpositive "alice@qkart"
                  [mkCartItem productA 2; mkCartItem productB 0]).
    assert (quantities_positive [mkCartItem productA 2; mkCartItem productB 0])
      as Hcart by (apply Hpositive; vm_compute; reflexivity).
    inversion Hcart as [|? ? _ Hrest]. inversion Hrest as [|? ? Hq _].
    simpl in Hq. lia.
Qed.

(** C10, amended.  [getCartByUser], [updateProductInCart],
    [deleteProductFromCart] and [checkout] keep the products of each
    cart distinct, whatever their arguments; [addProductToCart] keeps
    them distinct, whatever the supplied quantity, when the product it
    finds is stored under [productId] itself.  [getCartByUser],
    [deleteProductFromCart] and [checkout] keep every quantity at least
    1; [addProductToCart] and [updateProductInCart] keep every quantity
    at least 1 when the supplied quantity is at least 1. *)
Theorem service_preserves_invariant (w : World) (productId : string) (q : Z) :
  (carts_products_unique w ->
   carts_products_unique (getCartByUser w).2 /\
   ((forall p, products w productId = Some p -> _id p = productId) ->
    carts_products_unique (addProductToCart productId q w).2) /\
   carts_products_unique (updateProductInCart productId q w).2 /\
   carts_products_unique (deleteProductFromCart productId w).2 /\
   carts_products_unique (checkout w).2) /\
  (carts_quantities_positive w ->
   carts_quantities_positive (getCartByUser w).2 /\
   carts_quantities_positive (deleteProductFromCart productId w).2 /\
   carts_quantities_positive (checkout w).2 /\
   ((1 <= q)%Z ->
    carts_quantities_positive (addProductToCart productId q w).2 /\
    carts_quantities_positive (updateProductInCart productId q w).2)).
Proof.
  split.
  - intros Hunique. unfold carts_products_unique in *.
    split; [by rewrite getCartByUser_world|].
    split; [|split; [|split]].
    + intros Hstored.
      destruct (addProductToCart_carts w productId q)
        as [-> | [(p & Hcart & ->) | (p & items & Hp & Hcart & Hnot & ->)]];
        [done| |].
      * apply map_Forall_insert_2; [|done]. apply NoDup_singleton.
      * apply map_Forall_insert_2; [|done].
        apply (unique_append items productId); [by apply Hstored|done|].
        by apply (Hunique _ _ Hcart).
    + destruct (updateProductInCart_carts w productId q)
        as [-> | (l1 & item & l2 & Hcart & ->)]; [done|].
      apply map_Forall_insert_2; [|done].
      apply unique_update. by apply (Hunique _ _ Hcart).
    + destruct (deleteProductFromCart_carts w productId)
        as [-> | (l1 & item & l2 & Hcart & ->)]; [done|].
      apply map_Forall_insert_2; [|done].
      apply (unique_delete l1 l2 item). by apply (Hunique _ _ Hcart).
    + destruct (checkout_carts w) as [-> | ->]; [done|].
      apply map_Forall_insert_2; [|done]. apply NoDup_nil_2.
  - intros Hpositive. unfold carts_quantities_positive in *.
    split; [by rewrite getCartByUser_world|].
    split; [|split; [|intros Hq; split]].
    + destruct (deleteProductFromCart_carts w productId)
        as [-> | (l1 & item & l2 & Hcart & ->)]; [done|].
      apply map_Forall_insert_2; [|done].
      apply (positive_delete l1 l2 item). by apply (Hpositive _ _ Hcart).
    + destruct (checkout_carts w) as [-> | ->]; [done|].
      apply map_Forall_insert_2; [|done]. constructor.
    + destruct (addProductToCart_carts w productId q)
        as [-> | [(p & Hcart & ->) | (p & items & _ & Hcart & Hnot & ->)]];
        [done| |].
      * apply map_Forall_insert_2; [|done]. by repeat constructor.
      * apply map_Forall_insert_2; [|done].
        apply positive_append; [done|]. by apply (Hpositive _ _ Hcart).
    + destruct (updateProductInCart_carts w productId q)
        as [-> | (l1 & item & l2 & Hcart & ->)]; [done|].
      apply map_Forall_insert_2; [|done].
      apply positive_update; [done|]. by apply (Hpositive _ _ Hcart).
Qed.

(** Both halves of the invariant hold in the world whose cart holds
    product A only. *)
Lemma cart_of_A_invariant : cart_invariant cart_of_A.
Proof.
  split; apply map_Forall_singleton.
  - repeat constructor; simpl; lia.
  - apply NoDup_singleton.
Qed.

(** In the world whose cart holds product A only, adding product B with
    quantity 7 returns the cart of A and B, and updating product A to
    quantity 7 returns the cart of A: both calls run to their end. *)
Lemma service_preserves_invariant_witness :
  (addProductToCart "B" 7 cart_of_A).1 =
    Return (VCart (Cart.mk "alice@qkart"
                           [mkCartItem productA 2; mkCartItem productB 7])) /\
  (updateProductInCart "A" 7 cart_of_A).1 =
    Return (VCart (Cart.mk "alice@qkart" [mkCartItem productA 7])) /\
  carts_products_unique (addProductToCart "B" 7 cart_of_A).2 /\
  carts_quantities_positive (addProductToCart "B" 7 cart_of_A).2 /\
  carts_products_unique (updateProductInCart "A" 7 cart_of_A).2 /\
  carts_quantities_positive (updateProductInCart "A" 7 cart_of_A).2 /\
  carts_products_unique (getCartByUser cart_of_A).2 /\
  carts_products_unique (deleteProductFromCart "A" cart_of_A).2 /\
  carts_products_unique (checkout cart_of_A).2.
Proof.
  split; [vm_compute; reflexivity|]. split; [vm_compute; reflexivity|].
  destruct (service_preserves_invariant cart_of_A "B" 7)
    as [HuniqueB HpositiveB].
  destruct (service_preserves_invariant cart_of_A "A" 7)
    as [HuniqueA HpositiveA].
  destruct (HuniqueB (proj2 cart_of_A_invariant))
    as (Hget & Hadd & _ & _ & Hcheckout).
  destruct (HuniqueA (proj2 cart_of_A_invariant))
    as (_ & _ & Hupdate & Hdelete & _).
  destruct (HpositiveB (proj1 cart_of_A_invariant)) as (_ & _ & _ & HqB).
  destruct (HpositiveA (proj1 cart_of_A_invariant)) as (_ & _ & _ & HqA).
  split.
  { apply Hadd. intros p Hp. vm_compute in Hp. by injection Hp as <-. }
  split; [apply HqB; lia|].
  split; [exact Hupdate|].
  split; [apply HqA; lia|].
  split; [exact Hget|]. split; [exact Hdelete|exact Hcheckout].
Defined.

(** * Further properties of the service *)

(** ** What a call can do to the world *)

Lemma set_carts_same (w : World) (e : string) (items : list CartItem) :
  carts w !! e = Some items -> set_carts (<[e := items]> (carts w)) w = w.
Proof.
  intros Hcart. rewrite insert_id by done. by destruct w.
Qed.

(** Every call ends in one of three ways: it throws an [ApiError] and
    the world is as before; it returns a cart of the user, which is then
    the stored cart, and nothing else has changed; or (checkout) it
    returns [undefined], the stored cart is empty and the user document
    is debited. *)
Lemma call_outcome (op : Operation) (w : World) :
  (exists e, call op w = (Throw (ApiErr e), w)) \/
  (exists items,
     call op w =
     (Return (VCart (Cart.mk (User.email (user w)) items)),
      set_carts (<[User.email (user w) := items]> (carts w)) w)) \/
  (exists sum,
     op = Checkout /\
     call op w =
     (Return VUndefined,
      set_carts (<[User.email (user w) := []]> (carts w))
        (set_user (debit sum (user w)) w))).
Proof.
  destruct op as [|productId q|productId q|productId|]; simpl.
  - destruct (carts w !! User.email (user w)) as [items|] eqn:Hcart.
    + right. left. exists items. rewrite set_carts_same by done.
      run. by rewrite Hcart.
    + left. eexists. run. by rewrite Hcart.
  - destruct (products w productId) as [p|] eqn:Hproduct.
    + destruct (carts w !! User.email (user w)) as [items|] eqn:Hcart.
      * destruct (in_cart_dec productId items) as [Hin|Hnot].
        -- left. eexists. by apply (add_refuses_duplicate w productId q p items).
        -- right. left. eexists. by apply (add_appends w productId q p items).
      * rewrite (add_without_cart w productId q p) by done.
        destruct (cart_create_ok w); [right; left|left]; by eexists.
    + left. eexists. run. by rewrite Hproduct.
  - destruct (carts w !! User.email (user w)) as [items|] eqn:Hcart.
    + destruct (products w productId) as [p|] eqn:Hproduct.
      * destruct (in_cart_dec productId items) as [Hin|Hnot].
        -- right. left.
           destruct (in_cart_split _ _ Hin) as (l1 & item & l2 & -> & Hid & Hl1 & _).
           eexists. by apply (update_first w productId q p l1 l2 item).
        -- left. eexists. apply find_not_in_cart in Hnot.
           run. rewrite Hcart. simpl. rewrite Hproduct. simpl. by rewrite Hnot.
      * left. eexists. run. rewrite Hcart. simpl. by rewrite Hproduct.
    + left. eexists. run. by rewrite Hcart.
  - destruct (carts w !! User.email (user w)) as [items|] eqn:Hcart.
    + destruct (in_cart_dec productId items) as [Hin|Hnot].
      * right. left.
        destruct (in_cart_split _ _ Hin) as (l1 & item & l2 & -> & Hid & Hl1 & _).
        eexists. by apply (delete_first w productId l1 l2 item).
      * left. eexists. apply find_not_in_cart in Hnot.
        run. rewrite Hcart. simpl. by rewrite Hnot.
    + left. eexists. run. by rewrite Hcart.
  - run. destruct (carts w !! User.email (user w)) as [items|]; simpl;
      [|left; by eexists].
    destruct items; simpl; [left; by eexists|].
    destruct (User.nonDefaultAddress (user w)); simpl; [|left; by eexists].
    destruct (truthy (User.walletMoney (user w))); simpl; [|left; by eexists].
    right. right. by eexists.
Qed.

Lemma call_carts (op : Operation) (w : World) :
  carts (call op w).2 = carts w \/
  exists items,
    carts (call op w).2 = <[User.email (user w) := items]> (carts w).
Proof.
  destruct (call_outcome op w)
    as [(e & ->) | [(items & ->) | (sum & _ & ->)]]; simpl; eauto.
Qed.

Lemma call_user_email (op : Operation) (w : World) :
  User.email (user (call op w).2) = User.email (user w).
Proof.
  destruct (call_outcome op w)
    as [(e & ->) | [(items & ->) | (sum & _ & ->)]]; done.
Qed.

(** X1.  A call that throws an [ApiError] has written nothing: the
    world, the collections and the user document, is as it was before
    the call.  Every [throw new ApiError] of the service comes before its
    first write. *)
Theorem failed_call_changes_nothing (op : Operation) (w : World) (e : ApiError) :
  (call op w).1 = Throw (ApiErr e) ->
  (call op w).2 = w.
Proof.
  destruct (call_outcome op w)
    as [(e' & ->) | [(items & ->) | (sum & _ & ->)]]; simpl; done.
Qed.

Lemma failed_call_changes_nothing_witness :
  (call (UpdateProductInCart "B" 4) cart_of_A).2 = cart_of_A.
Proof.
  apply (failed_call_changes_nothing (UpdateProductInCart "B" 4) cart_of_A
           (mkApiError BAD_REQUEST "Product not in cart")).
  vm_compute. reflexivity.
Defined.

(** X2.  No call writes the Product collection, the User collection or
    the cart of another user, and no call changes the [email] of the user
    document; only [checkout] changes the user document at all. *)
Theorem call_frame (op : Operation) (w : World) :
  products (call op w).2 = products w /\
  users (call op w).2 = users w /\
  User.email (user (call op w).2) = User.email (user w) /\
  (forall e, e <> User.email (user w) ->
             carts (call op w).2 !! e = carts w !! e) /\
  (op <> Checkout -> user (call op w).2 = user w).
Proof.
  destruct (call_outcome op w)
    as [(e & ->) | [(items & ->) | (sum & -> & ->)]]; simpl.
  - done.
  - repeat split; try done. intros e He. by rewrite lookup_insert_ne.
  - repeat split; try done. intros e He. by rewrite lookup_insert_ne.
Qed.

Lemma call_frame_witness :
  carts (call (DeleteProductFromCart "A") example_world).2 !! "bob@qkart" =
    carts example_world !! "bob@qkart" /\
  user (call (DeleteProductFromCart "A") example_world).2 = alice.
Proof.
  destruct (call_frame (DeleteProductFromCart "A") example_world)
    as (_ & _ & _ & Hcarts & Huser).
  split.
  - apply Hcarts. discriminate.
  - apply Huser. discriminate.
Defined.

(** X3.  The cart a call returns is the cart of the user as the Cart
    collection holds it after the call. *)
Theorem returned_cart_is_stored (op : Operation) (w w' : World) (cart : Cart.doc) :
  call op w = (Return (VCart cart), w') ->
  Cart.email cart = User.email (user w) /\
  carts w' !! User.email (user w) = Some (Cart.cartItems cart).
Proof.
  destruct (call_outcome op w)
    as [(e & ->) | [(items & ->) | (sum & _ & ->)]]; [done| |done].
  intros [= <- <-]. simpl. split; [done|]. apply lookup_insert_eq.
Qed.

Lemma returned_cart_is_stored_witness :
  Cart.email (Cart.mk "alice@qkart" [mkCartItem productA 2; mkCartItem productB 7])
    = "alice@qkart" /\
  carts (with_carts {[ "alice@qkart" := [mkCartItem productA 2; mkCartItem productB 7] ]}
           example_world) !! "alice@qkart" =
    Some [mkCartItem productA 2; mkCartItem productB 7].
Proof.
  apply (returned_cart_is_stored (UpdateProductInCart "B" 7) example_world
           (with_carts {[ "alice@qkart" := [mkCartItem productA 2; mkCartItem productB 7] ]}
              example_world)
           (Cart.mk "alice@qkart" [mkCartItem productA 2; mkCartItem productB 7])).
  vm_compute. reflexivity.
Defined.

Lemma calls_user_email (ops : list Operation) (w : World) :
  User.email (user (calls ops w)) = User.email (user w).
Proof.
  revert w. induction ops as [|op rest IH]; intros w; simpl; [done|].
  by rewrite IH, call_user_email.
Qed.

(** X4.  Over any sequence of calls no cart document is removed from
    the Cart collection, and the only cart document that can appear is
    the one of the calling user. *)
Theorem calls_keep_cart_documents (ops : list Operation) (w : World) :
  dom (carts w) ⊆ dom (carts (calls ops w)) /\
  dom (carts (calls ops w)) ⊆ dom (carts w) ∪ {[ User.email (user w) ]}.
Proof.
  revert w. induction ops as [|op rest IH]; intros w; simpl.
  - split; [done|]. apply union_subseteq_l.
  - destruct (IH (call op w).2) as [Hkeep Hnew].
    rewrite call_user_email in Hnew.
    destruct (call_carts op w) as [Hsame | (items & Hput)].
    + rewrite Hsame in Hkeep, Hnew. done.
    + rewrite Hput, dom_insert_L in Hkeep, Hnew. split.
      * intros e He. apply Hkeep, elem_of_union. by right.
      * intros e He. apply Hnew in He.
        rewrite !elem_of_union in He. rewrite elem_of_union. tauto.
Qed.

(** ** Errors *)

(** X5.  [updateProductInCart] checks the cart before the catalog: without
    a cart it throws InvalidRequest (no cart), whether or not the product
    resolves; with a cart and a product that does not resolve it throws
    InvalidRequest (no such product), whether or not the cart holds a
    line item for it.  Nothing is written. *)
Theorem update_checks_cart_then_catalog (w : World) (productId : string) (q : Z) :
  (carts w !! User.email (user w) = None ->
   updateProductInCart productId q w =
   (Throw (ApiErr (mkApiError BAD_REQUEST
      "User does not have a cart. Use POST to create cart and add a product")),
    w)) /\
  (forall items,
     carts w !! User.email (user w) = Some items ->
     products w productId = None ->
     updateProductInCart productId q w =
     (Throw (ApiErr (mkApiError BAD_REQUEST "Product doesn't exist in database")),
      w)).
Proof.
  split.
  - intros Hcart. run. by rewrite Hcart.
  - intros items Hcart Hproduct. run. rewrite Hcart. simpl. by rewrite Hproduct.
Qed.

(** Without a cart and for the unknown product Z; with the cart that
    holds Z, which the catalog does not. *)
Lemma update_checks_cart_then_catalog_witness :
  updateProductInCart "Z" 2 (with_carts ∅ example_world) =
    (Throw (ApiErr (mkApiError BAD_REQUEST
       "User does not have a cart. Use POST to create cart and add a product")),
     with_carts ∅ example_world) /\
  updateProductInCart "Z" 2 cart_of_Z =
    (Throw (ApiErr (mkApiError BAD_REQUEST "Product doesn't exist in database")),
     cart_of_Z).
Proof.
  split.
  - apply (proj1 (update_checks_cart_then_catalog (with_carts ∅ example_world) "Z" 2)).
    vm_compute. reflexivity.
  - apply (proj2 (update_checks_cart_then_catalog cart_of_Z "Z" 2)
             [mkCartItem (mkProduct "Z" 3) 1]).
    + vm_compute. reflexivity.
    + vm_compute. reflexivity.
Defined.

(** X6.  [deleteProductFromCart] throws InvalidRequest without a cart,
    and InvalidRequest (product not in cart) when the cart holds no line
    item for the product; nothing is written. *)
Theorem delete_failures (w : World) (productId : string) :
  (carts w !! User.email (user w) = None ->
   deleteProductFromCart productId w =
   (Throw (ApiErr (mkApiError BAD_REQUEST
      "User does not have a cart. Use POST to create cart and add a product")),
    w)) /\
  (forall items,
     carts w !! User.email (user w) = Some items ->
     not_in_cart productId items ->
     deleteProductFromCart productId w =
     (Throw (ApiErr (mkApiError BAD_REQUEST "Product not in cart")), w)).
Proof.
  split.
  - intros Hcart. run. by rewrite Hcart.
  - intros items Hcart Hnot. apply find_not_in_cart in Hnot.
    run. rewrite Hcart. simpl. by rewrite Hnot.
Qed.

Lemma delete_failures_witness :
  deleteProductFromCart "A" (with_carts ∅ example_world) =
    (Throw (ApiErr (mkApiError BAD_REQUEST
       "User does not have a cart. Use POST to create cart and add a product")),
     with_carts ∅ example_world) /\
  deleteProductFromCart "B" cart_of_A =
    (Throw (ApiErr (mkApiError BAD_REQUEST "Product not in cart")), cart_of_A).
Proof.
  split.
  - apply (proj1 (delete_failures (with_carts ∅ example_world) "A")).
    vm_compute. reflexivity.
  - apply (proj2 (delete_failures cart_of_A "B") [mkCartItem productA 2]).
    + vm_compute. reflexivity.
    + repeat constructor. discriminate.
Defined.

Lemma update_throws_bad_request (w : World) (productId : string) (q : Z) (e : ApiError) :
  (updateProductInCart productId q w).1 = Throw (ApiErr e) ->
  statusCode e = BAD_REQUEST.
Proof.
  intros Hcall.
  destruct (carts w !! User.email (user w)) as [items|] eqn:Hcart.
  - destruct (products w productId) as [p|] eqn:Hproduct.
    + destruct (in_cart_dec productId items) as [Hin|Hnot].
      * destruct (in_cart_split _ _ Hin) as (l1 & item & l2 & -> & Hid & Hl1 & _).
        by rewrite (update_first w productId q p l1 l2 item) in Hcall.
      * apply find_not_in_cart in Hnot. revert Hcall. run.
        rewrite Hcart. simpl. rewrite Hproduct. simpl. rewrite Hnot.
        by intros [= <-].
    + revert Hcall. run. rewrite Hcart. simpl. rewrite Hproduct.
      by intros [= <-].
  - revert Hcall. run. rewrite Hcart. by intros [= <-].
Qed.

Lemma delete_throws_bad_request (w : World) (productId : string) (e : ApiError) :
  (deleteProductFromCart productId w).1 = Throw (ApiErr e) ->
  statusCode e = BAD_REQUEST.
Proof.
  intros Hcall.
  destruct (carts w !! User.email (user w)) as [items|] eqn:Hcart.
  - destruct (in_cart_dec productId items) as [Hin|Hnot].
    + destruct (in_cart_split _ _ Hin) as (l1 & item & l2 & -> & Hid & Hl1 & _).
      by rewrite (delete_first w productId l1 l2 item) in Hcall.
    + apply find_not_in_cart in Hnot. revert Hcall. run.
      rewrite Hcart. simpl. rewrite Hnot. by intros [= <-].
  - revert Hcall. run. rewrite Hcart. by intros [= <-].
Qed.

(** X7.  The status of an error tells its cause.  InternalError comes
    only from [addProductToCart], for a product that resolves, when the
    user has no cart and the store does not create one; NotFound comes
    only from [getCartByUser] and [checkout], when the user has no
    cart. *)
Theorem status_tells_cause (op : Operation) (w : World) (msg : string) :
  ((call op w).1 = Throw (ApiErr (mkApiError INTERNAL_SERVER_ERROR msg)) ->
   (exists productId q,
      op = AddProductToCart productId q /\ is_Some (products w productId)) /\
   carts w !! User.email (user w) = None /\
   cart_create_ok w = false) /\
  ((call op w).1 = Throw (ApiErr (mkApiError NOT_FOUND msg)) ->
   (op = GetCartByUser \/ op = Checkout) /\
   carts w !! User.email (user w) = None).
Proof.
  split; intros Hcall.
  - destruct op as [|productId q|productId q|productId|]; simpl in Hcall.
    + revert Hcall. run. by destruct (carts w !! User.email (user w)).
    + destruct (products w productId) as [p|] eqn:Hproduct.
      * destruct (carts w !! User.email (user w)) as [items|] eqn:Hcart.
        -- destruct (in_cart_dec productId items) as [Hin|Hnot].
           ++ by rewrite (add_refuses_duplicate w productId q p items) in Hcall.
           ++ by rewrite (add_appends w productId q p items) in Hcall.
        -- rewrite (add_without_cart w productId q p) in Hcall by done.
           destruct (cart_create_ok w); [done|].
           split; [|done]. by exists productId, q.
      * revert Hcall. run. by rewrite Hproduct.
    + by apply update_throws_bad_request in Hcall.
    + by apply delete_throws_bad_request in Hcall.
    + revert Hcall. run.
      destruct (carts w !! User.email (user w)) as [items|]; simpl; [|done].
      destruct items; simpl; [done|].
      destruct (User.nonDefaultAddress (user w)); simpl; [|done].
      by destruct (truthy (User.walletMoney (user w))).
  - destruct op as [|productId q|productId q|productId|]; simpl in Hcall.
    + split; [by left|]. revert Hcall. run.
      by destruct (carts w !! User.email (user w)).
    + destruct (products w productId) as [p|] eqn:Hproduct.
      * destruct (carts w !! User.email (user w)) as [items|] eqn:Hcart.
        -- destruct (in_cart_dec productId items) as [Hin|Hnot].
           ++ by rewrite (add_refuses_duplicate w productId q p items) in Hcall.
           ++ by rewrite (add_appends w productId q p items) in Hcall.
        -- rewrite (add_without_cart w productId q p) in Hcall by done.
           by destruct (cart_create_ok w).
      * revert Hcall. run. by rewrite Hproduct.
    + by apply update_throws_bad_request in Hcall.
    + by apply delete_throws_bad_request in Hcall.
    + split; [by right|]. revert Hcall. run.
      destruct (carts w !! User.email (user w)) as [items|]; simpl; [|done].
      destruct items; simpl; [done|].
      destruct (User.nonDefaultAddress (user w)); simpl; [|done].
      by destruct (truthy (User.walletMoney (user w))).
Qed.

Lemma status_tells_cause_witness :
  ((exists productId q,
      AddProductToCart "B" 3 = AddProductToCart productId q /\
      is_Some (products (with_create false (with_carts ∅ example_world)) productId)) /\
   carts (with_create false (with_carts ∅ example_world)) !! "alice@qkart" = None /\
   cart_create_ok (with_create false (with_carts ∅ example_world)) = false) /\
  ((Checkout = GetCartByUser \/ Checkout = Checkout) /\
   carts (with_carts ∅ example_world) !! "alice@qkart" = None).
Proof.
  split.
  - apply (proj1 (status_tells_cause (AddProductToCart "B" 3)
                    (with_create false (with_carts ∅ example_world))
                    "Internal Server Error")).
    vm_compute. reflexivity.
  - apply (proj2 (status_tells_cause Checkout (with_carts ∅ example_world)
                    "User does not have a cart")).
    vm_compute. reflexivity.
Defined.

(** ** The catalog *)

(** X8.  [getCartByUser], [deleteProductFromCart] and [checkout] do not
    read the Product collection: with any other catalog they have the
    same result and the same effect.  In particular [checkout] charges
    the costs embedded in the cart, and a line item whose product has
    left the catalog can still be deleted. *)
Theorem catalog_not_consulted (ps : string -> option Product) (w : World)
    (productId : string) :
  getCartByUser (with_products ps w) =
    ((getCartByUser w).1, with_products ps (getCartByUser w).2) /\
  deleteProductFromCart productId (with_products ps w) =
    ((deleteProductFromCart productId w).1,
     with_products ps (deleteProductFromCart productId w).2) /\
  checkout (with_products ps w) =
    ((checkout w).1, with_products ps (checkout w).2).
Proof.
  split; [|split].
  - run. by destruct (carts w !! User.email (user w)).
  - run. destruct (carts w !! User.email (user w)) as [items|]; simpl; [|done].
    by destruct (find (is_product productId) items).
  - run. destruct (carts w !! User.email (user w)) as [items|]; simpl; [|done].
    destruct items; simpl; [done|].
    destruct (User.nonDefaultAddress (user w)); simpl; [|done].
    by destruct (truthy (User.walletMoney (user w))).
Qed.

(** ** Sequences of calls *)

(** X9.  Adding a product, found in the catalog under [productId]
    itself, to a cart that does not hold it and then deleting it gives
    back the cart, and the whole world, as they were.  When the user had
    no cart, the two calls leave an empty cart behind. *)
Theorem add_then_delete (w : World) (productId : string) (q : Z) (p : Product) :
  products w productId = Some p ->
  _id p = productId ->
  (forall items,
     carts w !! User.email (user w) = Some items ->
     not_in_cart productId items ->
     deleteProductFromCart productId (addProductToCart productId q w).2 =
     (Return (VCart (Cart.mk (User.email (user w)) items)), w)) /\
  (carts w !! User.email (user w) = None ->
   cart_create_ok w = true ->
   deleteProductFromCart productId (addProductToCart productId q w).2 =
   (Return (VCart (Cart.mk (User.email (user w)) [])),
    set_carts (<[User.email (user w) := []]> (carts w)) w)).
Proof.
  intros Hproduct Hid. split.
  - intros items Hcart Hnot.
    rewrite (add_appends w productId q p items) by done. simpl.
    rewrite (delete_first _ productId items [] (mkCartItem p q));
      simpl; [|apply lookup_insert_eq|done|done].
    rewrite app_nil_r. unfold set_carts. simpl.
    rewrite insert_insert_eq. f_equal. by apply set_carts_same.
  - intros Hcart Hok.
    rewrite (add_without_cart w productId q p), Hok by done. simpl.
    rewrite (delete_first _ productId [] [] (mkCartItem p q));
      simpl; [|apply lookup_insert_eq|constructor|done].
    unfold set_carts. simpl. by rewrite insert_insert_eq.
Qed.

Lemma add_then_delete_witness :
  deleteProductFromCart "B" (addProductToCart "B" 4 cart_of_A).2 =
    (Return (VCart (Cart.mk "alice@qkart" [mkCartItem productA 2])), cart_of_A) /\
  deleteProductFromCart "B" (addProductToCart "B" 4 (with_carts ∅ example_world)).2 =
    (Return (VCart (Cart.mk "alice@qkart" [])),
     set_carts (<["alice@qkart" := []]> ∅) (with_carts ∅ example_world)).
Proof.
  split.
  - refine (proj1 (add_then_delete cart_of_A "B" 4 productB _ _)
              [mkCartItem productA 2] _ _).
    + vm_compute. reflexivity.
    + reflexivity.
    + vm_compute. reflexivity.
    + repeat constructor. discriminate.
  - refine (proj2 (add_then_delete (with_carts ∅ example_world) "B" 4 productB _ _)
              _ _).
    + vm_compute. reflexivity.
    + reflexivity.
    + vm_compute. reflexivity.
    + reflexivity.
Defined.

(** X10.  Adding a product, found in the catalog under [productId]
    itself, with one quantity and then updating it to another is the same
    as adding it with the other quantity at once: same returned cart,
    same world. *)
Theorem add_then_update (w : World) (productId : string) (q1 q2 : Z) (p : Product) :
  products w productId = Some p ->
  _id p = productId ->
  match carts w !! User.email (user w) with
  | Some items => not_in_cart productId items
  | None => cart_create_ok w = true
  end ->
  updateProductInCart productId q2 (addProductToCart productId q1 w).2 =
  addProductToCart productId q2 w.
Proof.
  intros Hproduct Hid Hfresh.
  destruct (carts w !! User.email (user w)) as [items|] eqn:Hcart.
  - rewrite !(add_appends w productId _ p items) by done. simpl.
    rewrite (update_first _ productId q2 p items []
               (mkCartItem p q1));
      simpl; [|apply lookup_insert_eq|done..].
    unfold set_carts. simpl. by rewrite insert_insert_eq.
  - rewrite !(add_without_cart w productId _ p), Hfresh by done. simpl.
    rewrite (update_first _ productId q2 p [] []
               (mkCartItem p q1));
      simpl; [|apply lookup_insert_eq|done|constructor|done].
    unfold set_carts. simpl. by rewrite insert_insert_eq.
Qed.

Lemma add_then_update_witness :
  updateProductInCart "B" 9 (addProductToCart "B" 4 cart_of_A).2 =
  addProductToCart "B" 9 cart_of_A.
Proof.
  apply (add_then_update cart_of_A "B" 4 9 productB).
  - vm_compute. reflexivity.
  - reflexivity.
  - vm_compute. repeat constructor. discriminate.
Defined.

(** X11.  Of two updates of the same line item the last one wins:
    updating to [q1] and then to [q2] is the same as updating to [q2]. *)
Theorem update_twice (w : World) (productId : string) (q1 q2 : Z) (p : Product)
    (items : list CartItem) :
  carts w !! User.email (user w) = Some items ->
  products w productId = Some p ->
  in_cart productId items ->
  updateProductInCart productId q2 (updateProductInCart productId q1 w).2 =
  updateProductInCart productId q2 w.
Proof.
  intros Hcart Hproduct Hin.
  destruct (in_cart_split _ _ Hin) as (l1 & item & l2 & -> & Hid & Hl1 & _).
  rewrite (update_first w productId q1 p l1 l2 item) by done. simpl.
  rewrite (update_first _ productId q2 p l1 l2 (mkCartItem (product item) q1));
    simpl; [|apply lookup_insert_eq|done..].
  rewrite (update_first w productId q2 p l1 l2 item) by done.
  unfold set_carts. simpl. by rewrite insert_insert_eq.
Qed.

Lemma update_twice_witness :
  updateProductInCart "B" 9 (updateProductInCart "B" 4 example_world).2 =
  updateProductInCart "B" 9 example_world.
Proof.
  apply (update_twice example_world "B" 4 9 productB
           [mkCartItem productA 2; mkCartItem productB 1]).
  - vm_compute. reflexivity.
  - vm_compute. reflexivity.
  - apply Exists_cons_tl, Exists_cons_hd. reflexivity.
Defined.

(** X12.  In a cart whose products are distinct, deleting a product
    leaves no line item for it, and deleting it again throws
    InvalidRequest (product not in cart) and changes nothing. *)
Theorem delete_twice (w : World) (productId : string) (items : list CartItem) :
  carts w !! User.email (user w) = Some items ->
  in_cart productId items ->
  products_unique items ->
  exists rest w1,
    deleteProductFromCart productId w =
      (Return (VCart (Cart.mk (User.email (user w)) rest)), w1) /\
    not_in_cart productId rest /\
    deleteProductFromCart productId w1 =
      (Throw (ApiErr (mkApiError BAD_REQUEST "Product not in cart")), w1).
Proof.
  intros Hcart Hin Hunique.
  destruct (in_cart_split _ _ Hin) as (l1 & item & l2 & -> & Hid & Hl1 & _).
  assert (not_in_cart productId (l1 ++ l2)) as Hrest.
  { apply Forall_app. split; [done|]. apply not_in_cart_ids.
    unfold products_unique, product_ids in Hunique.
    rewrite fmap_app, fmap_cons, Hid in Hunique.
    apply NoDup_app in Hunique as (_ & _ & Hunique).
    by apply NoDup_cons in Hunique as [Hnot _]. }
  eexists _, _. split; [by apply (delete_first w productId l1 l2 item)|].
  split; [done|].
  apply find_not_in_cart in Hrest.
  run. rewrite lookup_insert_eq. simpl. by rewrite Hrest.
Qed.

Lemma delete_twice_witness :
  exists rest w1,
    deleteProductFromCart "A" example_world =
      (Return (VCart (Cart.mk "alice@qkart" rest)), w1) /\
    not_in_cart "A" rest /\
    deleteProductFromCart "A" w1 =
      (Throw (ApiErr (mkApiError BAD_REQUEST "Product not in cart")), w1).
Proof.
  apply (delete_twice example_world "A"
           [mkCartItem productA 2; mkCartItem productB 1]).
  - vm_compute. reflexivity.
  - apply Exists_cons_hd. reflexivity.
  - apply NoDup_cons. split.
    + rewrite list_elem_of_singleton. discriminate.
    + apply NoDup_singleton.
Defined.

(** X13.  After a successful [checkout] the cart is still there and
    empty: [getCartByUser] returns it, and a second [checkout] throws
    InvalidRequest (cart is empty) without touching the wallet again. *)
Theorem checkout_twice (w : World) (items : list CartItem) (balance : Z) :
  carts w !! User.email (user w) = Some items ->
  items <> [] ->
  User.nonDefaultAddress (user w) = true ->
  User.walletMoney (user w) = Some balance ->
  balance <> 0%Z ->
  exists w1,
    checkout w = (Return VUndefined, w1) /\
    getCartByUser w1 =
      (Return (VCart (Cart.mk (User.email (user w)) [])), w1) /\
    checkout w1 =
      (Throw (ApiErr (mkApiError BAD_REQUEST "User cart is empty")), w1).
Proof.
  intros Hcart Hitems Haddr Hwallet Hbalance.
  apply Z.eqb_neq in Hbalance.
  eexists. split.
  - run. rewrite Hcart. simpl.
    destruct items as [|item rest]; [done|]. simpl.
    rewrite Haddr, Hwallet. simpl. rewrite Hbalance. simpl. reflexivity.
  - split; run; by rewrite lookup_insert_eq.
Qed.

Lemma checkout_twice_witness :
  exists w1,
    checkout example_world = (Return VUndefined, w1) /\
    getCartByUser w1 = (Return (VCart (Cart.mk "alice@qkart" [])), w1) /\
    checkout w1 =
      (Throw (ApiErr (mkApiError BAD_REQUEST "User cart is empty")), w1).
Proof.
  apply (checkout_twice example_world
           [mkCartItem productA 2; mkCartItem productB 1] 100).
  - vm_compute. reflexivity.
  - discriminate.
  - reflexivity.
  - reflexivity.
  - lia.
Defined.

(** X15.  Adding a product to an existing cart that does not hold it
    puts the new line item last: the cart grows by one, every line item
    keeps its position, and the new one is the product the catalog finds
    at the time of the call, cost included, with the supplied quantity. *)
Theorem add_puts_item_last (w : World) (productId : string) (q : Z) (p : Product)
    (items : list CartItem) :
  products w productId = Some p ->
  carts w !! User.email (user w) = Some items ->
  not_in_cart productId items ->
  exists cart w',
    addProductToCart productId q w = (Return (VCart cart), w') /\
    length (Cart.cartItems cart) = S (length items) /\
    (forall i item, items !! i = Some item ->
                    Cart.cartItems cart !! i = Some item) /\
    Cart.cartItems cart !! length items =
      Some (mkCartItem p q).
Proof.
  intros Hproduct Hcart Hnot.
  eexists _, _. split; [by apply (add_appends w productId q p items)|]. simpl.
  split; [rewrite length_app; simpl; lia|]. split.
  - intros i item Hi. by apply lookup_app_l_Some.
  - by rewrite list_lookup_middle.
Qed.

Lemma add_puts_item_last_witness :
  exists cart w',
    addProductToCart "B" 4 cart_of_A = (Return (VCart cart), w') /\
    length (Cart.cartItems cart) = S (length [mkCartItem productA 2]) /\
    (forall i item, [mkCartItem productA 2] !! i = Some item ->
                    Cart.cartItems cart !! i = Some item) /\
    Cart.cartItems cart !! length [mkCartItem productA 2] =
      Some (mkCartItem (mkProduct "B" 5) 4).
Proof.
  apply (add_puts_item_last cart_of_A "B" 4 productB [mkCartItem productA 2]).
  - vm_compute. reflexivity.
  - vm_compute. reflexivity.
  - repeat constructor. discriminate.
Defined.

(** ** Identifiers *)

(** X17.  [addProductToCart] looks for the request string among the
    identifiers of the cart, and appends the product the catalog found.
    When that product is stored under another identifier than the
    request string (an identifier sent in upper-case digits), a call
    that adds it to a cart is not refused when it is repeated: the second
    call appends the product again, and the cart holds it twice. *)
Theorem add_twice_under_other_id (w : World) (productId : string) (q1 q2 : Z)
    (p : Product) (items : list CartItem) :
  products w productId = Some p ->
  _id p <> productId ->
  carts w !! User.email (user w) = Some items ->
  not_in_cart productId items ->
  exists w1 w2,
    addProductToCart productId q1 w =
      (Return (VCart (Cart.mk (User.email (user w))
                              (items ++ [mkCartItem p q1]))), w1) /\
    addProductToCart productId q2 w1 =
      (Return (VCart (Cart.mk (User.email (user w))
                              (items ++ [mkCartItem p q1; mkCartItem p q2]))),
       w2) /\
    carts w2 !! User.email (user w) =
      Some (items ++ [mkCartItem p q1; mkCartItem p q2]) /\
    ~ products_unique (items ++ [mkCartItem p q1; mkCartItem p q2]).
Proof.
  intros Hproduct Hid Hcart Hnot.
  eexists _, _. split; [by apply (add_appends w productId q1 p items)|].
  split.
  - rewrite (add_appends _ productId q2 p (items ++ [mkCartItem p q1]));
      simpl; [|done|apply lookup_insert_eq|].
    + by rewrite <- app_assoc.
    + apply Forall_app. split; [done|]. by constructor.
  - simpl. split; [apply lookup_insert_eq|].
    unfold products_unique, product_ids. rewrite fmap_app. simpl.
    intros (_ & _ & Htwice)%NoDup_app.
    apply NoDup_cons in Htwice as [Hin _]. apply Hin. by left.
Qed.

(** The product stored under [5f1a...abc] is requested as [5F1A...ABC]. *)
Lemma add_twice_under_other_id_witness :
  exists w1 w2,
    addProductToCart "5F1A00000000000000000ABC" 1 hex_world =
      (Return (VCart (Cart.mk "alice@qkart"
                              ([mkCartItem productA 2] ++ [mkCartItem productH 1]))),
       w1) /\
    addProductToCart "5F1A00000000000000000ABC" 3 w1 =
      (Return (VCart (Cart.mk "alice@qkart"
                              ([mkCartItem productA 2] ++
                               [mkCartItem productH 1; mkCartItem productH 3]))),
       w2) /\
    carts w2 !! "alice@qkart" =
      Some ([mkCartItem productA 2] ++
            [mkCartItem productH 1; mkCartItem productH 3]) /\
    ~ products_unique ([mkCartItem productA 2] ++
                       [mkCartItem productH 1; mkCartItem productH 3]).
Proof.
  apply (add_twice_under_other_id hex_world "5F1A00000000000000000ABC" 1 3
           productH [mkCartItem productA 2]).
  - vm_compute. reflexivity.
  - discriminate.
  - vm_compute. reflexivity.
  - repeat constructor. discriminate.
Defined.

(** ** The invariant over sequences of calls *)

Lemma call_products (op : Operation) (w : World) :
  products (call op w).2 = products w.
Proof.
  destruct (call_outcome op w)
    as [(e & ->) | [(items & ->) | (sum & _ & ->)]]; done.
Qed.

Lemma call_keeps_unique (op : Operation) (w : World) :
  adds_stored_id w op ->
  carts_products_unique w -> carts_products_unique (call op w).2.
Proof.
  unfold carts_products_unique. intros Hstored Hunique.
  destruct op as [|productId q|productId q|productId|]; simpl in *.
  - by rewrite getCartByUser_world.
  - destruct (addProductToCart_carts w productId q)
      as [-> | [(p & Hcart & ->) | (p & items & Hp & Hcart & Hnot & ->)]];
      [done| |].
    + apply map_Forall_insert_2; [|done]. apply NoDup_singleton.
    + apply map_Forall_insert_2; [|done].
      apply (unique_append items productId); [by apply Hstored|done|].
      by apply (Hunique _ _ Hcart).
  - destruct (updateProductInCart_carts w productId q)
      as [-> | (l1 & item & l2 & Hcart & ->)]; [done|].
    apply map_Forall_insert_2; [|done].
    apply unique_update. by apply (Hunique _ _ Hcart).
  - destruct (deleteProductFromCart_carts w productId)
      as [-> | (l1 & item & l2 & Hcart & ->)]; [done|].
    apply map_Forall_insert_2; [|done].
    apply (unique_delete l1 l2 item). by apply (Hunique _ _ Hcart).
  - destruct (checkout_carts w) as [-> | ->]; [done|].
    apply map_Forall_insert_2; [|done]. apply NoDup_nil_2.
Qed.

Lemma call_keeps_positive (op : Operation) (w : World) :
  supplies_positive op ->
  carts_quantities_positive w -> carts_quantities_positive (call op w).2.
Proof.
  unfold carts_quantities_positive. intros Hq Hpositive.
  destruct op as [|productId q|productId q|productId|]; simpl in *.
  - by rewrite getCartByUser_world.
  - destruct (addProductToCart_carts w productId q)
      as [-> | [(p & Hcart & ->) | (p & items & _ & Hcart & Hnot & ->)]];
      [done| |].
    + apply map_Forall_insert_2; [|done]. by repeat constructor.
    + apply map_Forall_insert_2; [|done].
      apply positive_append; [done|]. by apply (Hpositive _ _ Hcart).
  - destruct (updateProductInCart_carts w productId q)
      as [-> | (l1 & item & l2 & Hcart & ->)]; [done|].
    apply map_Forall_insert_2; [|done].
    apply positive_update; [done|]. by apply (Hpositive _ _ Hcart).
  - destruct (deleteProductFromCart_carts w productId)
      as [-> | (l1 & item & l2 & Hcart & ->)]; [done|].
    apply map_Forall_insert_2; [|done].
    apply (positive_delete l1 l2 item). by apply (Hpositive _ _ Hcart).
  - destruct (checkout_carts w) as [-> | ->]; [done|].
    apply map_Forall_insert_2; [|done]. constructor.
Qed.

(** X16.  Over any sequence of calls, whether they return or throw, the
    products of every cart stay distinct when every product that an
    [addProductToCart] of the sequence finds is stored under the request
    string itself; and every quantity stays at least 1 when every
    quantity supplied along the way is at least 1. *)
Theorem calls_keep_invariant (ops : list Operation) (w : World) :
  (Forall (adds_stored_id w) ops ->
   carts_products_unique w -> carts_products_unique (calls ops w)) /\
  (Forall supplies_positive ops ->
   carts_quantities_positive w -> carts_quantities_positive (calls ops w)).
Proof.
  revert w. induction ops as [|op rest IH]; intros w; simpl; [done|].
  destruct (IH (call op w).2) as [IHunique IHpositive]. split.
  - intros [Hop Hrest]%Forall_cons Hunique.
    apply IHunique; [|by apply call_keeps_unique].
    eapply Forall_impl; [exact Hrest|].
    intros op'. unfold adds_stored_id. by rewrite call_products.
  - intros [Hop Hrest]%Forall_cons Hpositive.
    apply IHpositive; [done|]. by apply call_keeps_positive.
Qed.

Lemma calls_keep_invariant_witness :
  cart_invariant
    (calls [AddProductToCart "B" 3; AddProductToCart "B" 3;
            UpdateProductInCart "A" 5; DeleteProductFromCart "B";
            GetCartByUser; Checkout; AddProductToCart "A" 1]
       cart_of_A).
Proof.
  split.
  - apply (proj2 (calls_keep_invariant _ cart_of_A));
      [|exact (proj1 cart_of_A_invariant)].
    repeat constructor; simpl; lia.
  - apply (proj1 (calls_keep_invariant _ cart_of_A));
      [|exact (proj2 cart_of_A_invariant)].
    repeat constructor; simpl;
      intros p Hp; vm_compute in Hp; by injection Hp as <-.
Defined.
